(** * pyznap.ssh: the multiplexed ssh session

    A shallow embedding of [src/pyznap/ssh.py] (class [SSH]: [__init__],
    [setup_compress], [close], [__del__]) and the properties of its
    connection lifecycle and command vectors.

    The class talks to the outside through [os.path], [datetime.now],
    [subprocess.check_output] and [pyznap.utils.exists].  Their answers are
    collected in an environment record [Env]; what the program asks of them
    is recorded, in order, in the state.  Python exceptions are values of
    [exn]; a method is a state transformer that returns or raises. *)

From Stdlib Require Import String Ascii List ZArith Lia Bool.
From Stdlib Require Import DecimalString DecimalZ DecimalPos.
Import ListNotations.

Local Open Scope string_scope.
Local Open Scope list_scope.

(** ** Python library functions used by the module *)

Module Py.

(** [str(n)] and [format(n, 'd')] of an [int]. *)
Definition str_int (n : Z) : string :=
  NilZero.string_of_int (Z.to_int n).

(** A [datetime.datetime] value, as returned by [datetime.now()]. *)
Record datetime : Type := mkDatetime {
  year : Z; month : Z; day : Z;
  hour : Z; minute : Z; second : Z;
  microsecond : Z
}.

(** The ranges [datetime] guarantees ([MINYEAR = 1], [MAXYEAR = 9999]). *)
Definition valid_datetime (t : datetime) : bool :=
  ((1 <=? year t) && (year t <=? 9999) &&
   (1 <=? month t) && (month t <=? 12) &&
   (1 <=? day t) && (day t <=? 31) &&
   (0 <=? hour t) && (hour t <? 24) &&
   (0 <=? minute t) && (minute t <? 60) &&
   (0 <=? second t) && (second t <? 60) &&
   (0 <=? microsecond t) && (microsecond t <? 1000000))%Z.

Definition digit (n : Z) : ascii :=
  ascii_of_nat (48 + Z.to_nat (n mod 10)).

(** Zero-padded decimal fields of [strftime]: [%m %d %H %M %S] have two
    digits, [%Y] has four. *)
Definition pad2 (n : Z) : string :=
  String (digit (n / 10)) (String (digit n) "").

Definition pad4 (n : Z) : string :=
  String (digit (n / 1000)) (String (digit (n / 100))
    (String (digit (n / 10)) (String (digit n) ""))).

(** [t.strftime('%Y-%m-%d_%H:%M:%S')]; the microseconds are dropped. *)
Definition strftime (t : datetime) : string :=
  (pad4 (year t) ++ "-" ++ pad2 (month t) ++ "-" ++ pad2 (day t) ++ "_" ++
   pad2 (hour t) ++ ":" ++ pad2 (minute t) ++ ":" ++ pad2 (second t))%string.

(** The instant cut to whole seconds: all that [strftime] above shows. *)
Definition to_seconds (t : datetime) : datetime :=
  mkDatetime (year t) (month t) (day t) (hour t) (minute t) (second t) 0.

(** ASCII whitespace, as stripped by [bytes.rstrip()]. *)
Definition is_space (c : ascii) : bool :=
  match nat_of_ascii c with
  | 9 | 10 | 11 | 12 | 13 | 32 => true
  | _ => false
  end.

Fixpoint rstrip (s : string) : string :=
  match s with
  | "" => ""
  | String c s' =>
      match rstrip s' with
      | "" => if is_space c then "" else String c ""
      | r => String c r
      end
  end.

(** [c in s] for a character [c]. *)
Fixpoint has_char (c : ascii) (s : string) : bool :=
  match s with
  | "" => false
  | String x s' => Ascii.eqb x c || has_char c s'
  end.

(** Truthiness of an optional [str]: [None] and [''] are false. *)
Definition or_else (v : option string) (dflt : string) : string :=
  match v with
  | None => dflt
  | Some "" => dflt
  | Some s => s
  end.

(** What becomes of a child [subprocess] is asked to run: it ends within
    its timeout with a status, it does not end in time, or it cannot be
    started at all (the program is missing or not executable, the process
    table is full, ...) and the operating system reports an error
    number, with the file name concerned if there is one. *)
Inductive proc_result : Type :=
| Exited (returncode : Z) (stdout stderr : string)
| TimedOut
| NotStarted (errno : Z) (filename : option string).

(** The child ran, whatever its end. *)
Definition started (r : proc_result) : bool :=
  match r with
  | NotStarted _ _ => false
  | _ => true
  end.

End Py.

Import Py.

(** ** Exceptions *)

(** [OSError] stands for the subclass Python picks by error number
    ([FileNotFoundError] for 2, [PermissionError] for 13,
    [BlockingIOError] for 11, ...), as raised by a system call;
    [FileNotFoundError] is the instance [__init__] builds itself from the
    key path.  No handler of this module takes either. *)

(** The argument [SSHException] is built from: the stripped [stderr] bytes
    of the failed probe, or the [TimeoutExpired] instance itself. *)
Inductive exn_arg : Type :=
| ArgBytes (b : string)
| ArgTimeoutExpired (cmd : list string) (timeout : Z).

Inductive exn : Type :=
| FileNotFoundError (filename : string)
| AttributeError (attr : string)
| KeyError (k : string)
| CalledProcessError (returncode : Z) (cmd : list string) (stderr : string)
| TimeoutExpired (cmd : list string) (timeout : Z)
| OSError (errno : Z) (filename : option string)
| SSHException (arg : exn_arg).

Inductive outcome (A : Type) : Type :=
| Return (a : A)
| Raise (e : exn).
Arguments Return {A} a.
Arguments Raise {A} e.

(** ** The session object *)

(** An instance of [SSH].  Attributes appear when [__init__] and
    [setup_compress] assign them; [None] is an attribute not yet set.
    [compression] holds Python's [None] or an algorithm name. *)
Record SSH : Type := mkSSH {
  logger : option string;
  user : option string;
  host : option string;
  port : option Z;
  socket : option string;
  key : option string;
  cmd : option (list string);
  compression : option (option string);
  cmd_compress : option (list string)
}.

Definition new_object : SSH :=
  mkSSH None None None None None None None None None.

Definition set_logger (v : string) (o : SSH) : SSH :=
  mkSSH (Some v) (user o) (host o) (port o) (socket o) (key o) (cmd o)
        (compression o) (cmd_compress o).
Definition set_user (v : string) (o : SSH) : SSH :=
  mkSSH (logger o) (Some v) (host o) (port o) (socket o) (key o) (cmd o)
        (compression o) (cmd_compress o).
Definition set_host (v : string) (o : SSH) : SSH :=
  mkSSH (logger o) (user o) (Some v) (port o) (socket o) (key o) (cmd o)
        (compression o) (cmd_compress o).
Definition set_port (v : Z) (o : SSH) : SSH :=
  mkSSH (logger o) (user o) (host o) (Some v) (socket o) (key o) (cmd o)
        (compression o) (cmd_compress o).
Definition set_socket (v : string) (o : SSH) : SSH :=
  mkSSH (logger o) (user o) (host o) (port o) (Some v) (key o) (cmd o)
        (compression o) (cmd_compress o).
Definition set_key (v : string) (o : SSH) : SSH :=
  mkSSH (logger o) (user o) (host o) (port o) (socket o) (Some v) (cmd o)
        (compression o) (cmd_compress o).
Definition set_cmd (v : list string) (o : SSH) : SSH :=
  mkSSH (logger o) (user o) (host o) (port o) (socket o) (key o) (Some v)
        (compression o) (cmd_compress o).
Definition set_compression (v : option string) (o : SSH) : SSH :=
  mkSSH (logger o) (user o) (host o) (port o) (socket o) (key o) (cmd o)
        (Some v) (cmd_compress o).
Definition set_cmd_compress (v : list string) (o : SSH) : SSH :=
  mkSSH (logger o) (user o) (host o) (port o) (socket o) (key o) (cmd o)
        (compression o) (Some v).

(** ** What the program does to the outside *)

(** A call that leaves the process: a child spawned by
    [sp.check_output(cmd, timeout=...)], or a capability check
    [exists(name)] / [exists(name, ssh=self)]. *)
Inductive call : Type :=
| CheckOutput (cmd : list string) (timeout : Z)
| Exists (name : string) (ssh : option SSH).

Inductive level : Type := ERROR | WARNING.

(** A log record: level, message template and the values formatted into
    it (kept apart; no claim depends on the rendered text). *)
Inductive log_arg : Type :=
| LStr (s : string)
| LBytes (b : string)
| LExn (e : exn).

Record log_record : Type := mkLog {
  log_level : level;
  log_template : string;
  log_args : list log_arg
}.

(** The answers of the outside.  A child's result and a capability check
    may depend on every call made before ([list call], oldest first). *)
Record Env : Type := mkEnv {
  now : datetime;
  isfile : string -> bool;
  expanduser : string -> string;
  run : list call -> list string -> Z -> proc_result;
  exists_ : list call -> string -> option SSH -> bool
}.

Record State : Type := mkState {
  self : SSH;
  calls : list call;
  log : list log_record
}.

Definition with_self (o : SSH) (st : State) : State :=
  mkState o (calls st) (log st).
Definition with_call (c : call) (st : State) : State :=
  mkState (self st) (calls st ++ [c]) (log st).
Definition with_log (r : log_record) (st : State) : State :=
  mkState (self st) (calls st) (log st ++ [r]).

(** ** Methods as state transformers that return or raise *)

Definition M (A : Type) : Type := State -> outcome A * State.

Definition ret {A} (a : A) : M A := fun st => (Return a, st).
Definition raise {A} (e : exn) : M A := fun st => (Raise e, st).
Definition bind {A B} (m : M A) (k : A -> M B) : M B :=
  fun st =>
    match m st with
    | (Return a, st') => k a st'
    | (Raise e, st') => (Raise e, st')
    end.

Notation "x <- m ;; k" := (bind m (fun x => k))
  (at level 61, m at next level, right associativity).
Notation "m ;; k" := (bind m (fun _ => k))
  (at level 61, right associativity).

(** [try: body except <handled>: handler]; an exception [handler] does
    not take propagates. *)
Definition try_except {A} (body : M A) (handler : exn -> option (M A)) : M A :=
  fun st =>
    match body st with
    | (Return a, st') => (Return a, st')
    | (Raise e, st') =>
        match handler e with
        | Some h => h st'
        | None => (Raise e, st')
        end
    end.

(** [self.<name>]: [AttributeError] when the attribute was never set. *)
Definition getattr {A} (name : string) (field : SSH -> option A) : M A :=
  fun st =>
    match field (self st) with
    | Some v => (Return v, st)
    | None => (Raise (AttributeError name), st)
    end.

(** [self.<name> = v]. *)
Definition setattr (upd : SSH -> SSH) : M unit :=
  fun st => (Return tt, with_self (upd (self st)) st).

(** The call [lg.error(msg)] or [lg.warning(msg)] on the logger [lg]. *)
Definition logger_log (lg : string) (lv : level) (template : string)
    (args : list log_arg) : M unit :=
  fun st => (Return tt, with_log (mkLog lv template args) st).

(** [d[k]] on a dict of strings. *)
Fixpoint getitem (d : list (string * string)) (k : string) : M string :=
  match d with
  | [] => raise (KeyError k)
  | (k', v) :: d' => if String.eqb k' k then ret v else getitem d' k
  end.

(** [x in l] on a list of strings. *)
Definition contains (l : list string) (x : string) : bool :=
  existsb (String.eqb x) l.

(** ** The class [SSH] *)

(** The format expressions of [__init__]:
    ['/tmp/pyznap_{:s}@{:s}:{:d}_{:s}'.format(user, host, port, now)] and
    the list assigned to [self.cmd]. *)
Definition socket_path (u h : string) (p : Z) (t : datetime) : string :=
  ("/tmp/pyznap_" ++ u ++ "@" ++ h ++ ":" ++ str_int p ++ "_" ++ strftime t)
  %string.

Definition base_cmd (k s : string) (p : Z) (u h : string) : list string :=
  ["ssh"; "-i"; k; "-o"; "ControlMaster=auto"; "-o"; "ControlPersist=1m";
   "-o"; ("ControlPath=" ++ s)%string; "-p"; str_int p;
   (u ++ "@" ++ h)%string].

Section Methods.

Variable env : Env.

(** [datetime.now()], [os.path.isfile], [os.path.expanduser]. *)
Definition datetime_now : M datetime := ret (now env).
Definition os_path_isfile (path : string) : M bool := ret (isfile env path).
Definition os_path_expanduser (path : string) : string := expanduser env path.

(** [sp.check_output(cmd, timeout=timeout, stderr=sp.PIPE)]: returns the
    child's output when it exits with status 0, raises
    [CalledProcessError] (carrying the captured stderr) on another
    status, [TimeoutExpired] when the timeout runs out, and the
    [OSError] of the operating system when the child cannot be
    started. *)
Definition check_output (cmd : list string) (timeout : Z) : M string :=
  fun st =>
    let st' := with_call (CheckOutput cmd timeout) st in
    match run env (calls st) cmd timeout with
    | Exited rc out err =>
        if (rc =? 0)%Z then (Return out, st')
        else (Raise (CalledProcessError rc cmd err), st')
    | TimedOut => (Raise (TimeoutExpired cmd timeout), st')
    | NotStarted errno filename => (Raise (OSError errno filename), st')
    end.

(** [pyznap.utils.exists(name)] and [exists(name, ssh=self)]: the
    function lives in [pyznap/utils.py]; here it is an answer of the
    environment, a boolean that never raises. *)
Definition exists_local (name : string) : M bool :=
  fun st =>
    (Return (exists_ env (calls st) name None),
     with_call (Exists name None) st).

Definition exists_remote (name : string) : M bool :=
  fun st =>
    (Return (exists_ env (calls st) name (Some (self st))),
     with_call (Exists name (Some (self st))) st).

(** [SSH.close]. *)
Definition close : M unit :=
  try_except
    (c <- getattr "cmd" cmd ;;
     check_output (c ++ ["-O"; "exit"]) 5 ;;
     ret tt)
    (fun e =>
       match e with
       | CalledProcessError _ _ _ | TimeoutExpired _ _ => Some (ret tt)
       | _ => None
       end).

(** [SSH.__del__]. *)
Definition __del__ : M unit := close.

Definition algos : list string := ["gzip"; "lzop"; "bzip2"; "pigz"; "xz"].

Definition compress_cmd : list (string * string) :=
  [("gzip", "gzip"); ("lzop", "lzop"); ("bzip2", "bzip2");
   ("pigz", "pigz"); ("xz", "xz")].

Definition decompress_cmd : list (string * string) :=
  [("gzip", "gzip -d"); ("lzop", "lzop -d"); ("bzip2", "bzip2 -d");
   ("pigz", "pigz -d"); ("xz", "xz -d")].

(** [SSH.setup_compress]. *)
Definition setup_compress (_type : option string) : M unit :=
  setattr (set_compression None) ;;
  c <- getattr "cmd" cmd ;;
  setattr (set_cmd_compress c) ;;
  match _type with
  | None => ret tt
  | Some t =>
      if negb (contains algos t) then
        lg <- getattr "logger" logger ;;
        logger_log lg WARNING
          "Compression method {:s} not supported. Will continue without..."
          [LStr t]
      else
        here <- exists_local t ;;
        if negb here then
          lg <- getattr "logger" logger ;;
          logger_log lg WARNING
            "Compression algo {:s} does not exist, continuing without compression..."
            [LStr t]
        else
          there <- exists_remote t ;;
          if negb there then
            lg <- getattr "logger" logger ;;
            u <- getattr "user" user ;;
            h <- getattr "host" host ;;
            logger_log lg WARNING
              "Compression algo {:s} does not exist on {:s}@{:s}, continuingwithout compression..."
              [LStr t; LStr u; LStr h]
          else
            setattr (set_compression (Some t)) ;;
            cc <- getitem compress_cmd t ;;
            c' <- getattr "cmd" cmd ;;
            dc <- getitem decompress_cmd t ;;
            setattr (set_cmd_compress ([cc] ++ ["|"] ++ c' ++ [dc] ++ ["|"]))
  end.

(** [SSH.__init__]. *)
Definition __init__ (user_ host_ : string) (key_ : option string)
    (port_ : Z) (compress : option string) : M unit :=
  setattr (set_logger "pyznap.ssh") ;;
  setattr (set_user user_) ;;
  setattr (set_host host_) ;;
  setattr (set_port port_) ;;
  u <- getattr "user" user ;;
  h <- getattr "host" host ;;
  p <- getattr "port" port ;;
  t <- datetime_now ;;
  setattr (set_socket (socket_path u h p t)) ;;
  setattr (set_key (or_else key_ (os_path_expanduser "~/.ssh/id_rsa"))) ;;
  k <- getattr "key" key ;;
  isf <- os_path_isfile k ;;
  if negb isf then
    lg <- getattr "logger" logger ;;
    k1 <- getattr "key" key ;;
    logger_log lg ERROR "{} is not a valid ssh key file..." [LStr k1] ;;
    k2 <- getattr "key" key ;;
    raise (FileNotFoundError k2)
  else
    k3 <- getattr "key" key ;;
    s <- getattr "socket" socket ;;
    p' <- getattr "port" port ;;
    u' <- getattr "user" user ;;
    h' <- getattr "host" host ;;
    setattr (set_cmd (base_cmd k3 s p' u' h')) ;;
    try_except
      (c <- getattr "cmd" cmd ;;
       check_output (c ++ ["ls"]) 10 ;;
       ret tt)
      (fun e =>
         match e with
         | CalledProcessError _ _ err =>
             Some (lg <- getattr "logger" logger ;;
                   u1 <- getattr "user" user ;;
                   h1 <- getattr "host" host ;;
                   logger_log lg ERROR
                     "Error while connecting to {:s}@{:s}: {}..."
                     [LStr u1; LStr h1; LBytes (rstrip err)] ;;
                   close ;;
                   raise (SSHException (ArgBytes (rstrip err))))
         | TimeoutExpired c t =>
             Some (lg <- getattr "logger" logger ;;
                   u1 <- getattr "user" user ;;
                   h1 <- getattr "host" host ;;
                   logger_log lg ERROR
                     "Error while connecting to {:s}@{:s}: {}..."
                     [LStr u1; LStr h1; LExn (TimeoutExpired c t)] ;;
                   close ;;
                   raise (SSHException (ArgTimeoutExpired c t)))
         | _ => None
         end) ;;
    setup_compress compress.

(** The expression [SSH(user, host, key, port, compress)]: a new object,
    then [__init__] on it.  [key], [port] and [compress] default to
    [None], [22] and [None]. *)
Definition construct (user_ host_ : string) (key_ : option string)
    (port_ : Z) (compress : option string)
    (before : list call) (lg : list log_record) : outcome unit * State :=
  __init__ user_ host_ key_ port_ compress (mkState new_object before lg).

End Methods.

(** ** Derived notions used in the statements *)

(** [self.key] as line 74 computes it. *)
Definition resolve_key (env : Env) (key_ : option string) : string :=
  or_else key_ (expanduser env "~/.ssh/id_rsa").

(** The command vector of a session to [u@h:p] created at [now env]. *)
Definition session_cmd (env : Env) (u h : string) (key_ : option string)
    (p : Z) : list string :=
  base_cmd (resolve_key env key_) (socket_path u h p (now env)) p u h.

(** The object once lines 67-74 have run on [o]. *)
Definition after_key (env : Env) (u h : string) (key_ : option string)
    (p : Z) (o : SSH) : SSH :=
  mkSSH (Some "pyznap.ssh") (Some u) (Some h) (Some p)
        (Some (socket_path u h p (now env))) (Some (resolve_key env key_))
        (cmd o) (compression o) (cmd_compress o).

(** [base] occurs in [whole] as a contiguous run of tokens. *)
Definition wraps (whole base : list string) : Prop :=
  exists before after, whole = before ++ base ++ after.

(** The state at line 84: the command vector is in place. *)
Definition at_probe (env : Env) (u h : string) (key_ : option string)
    (p : Z) (st : State) : State :=
  with_self (set_cmd (session_cmd env u h key_ p)
               (after_key env u h key_ p (self st))) st.

Definition probe_call (env : Env) (u h : string) (key_ : option string)
    (p : Z) : call :=
  CheckOutput (session_cmd env u h key_ p ++ ["ls"]) 10.

Definition exit_call (env : Env) (u h : string) (key_ : option string)
    (p : Z) : call :=
  CheckOutput (session_cmd env u h key_ p ++ ["-O"; "exit"]) 5.

Definition connect_error (u h : string) (a : log_arg) : log_record :=
  mkLog ERROR "Error while connecting to {:s}@{:s}: {}..."
    [LStr u; LStr h; a].

(** The object once lines 112-113 have run: no compression, and the
    pipeline vector is the command vector. *)
Definition uncompressed (c : list string) (o : SSH) : SSH :=
  set_cmd_compress c (set_compression None o).

Definition compressed (t : string) (c : list string) (o : SSH) : SSH :=
  set_cmd_compress ([t] ++ ["|"] ++ c ++ [(t ++ " -d")%string] ++ ["|"])
    (set_compression (Some t) (uncompressed c o)).

(** The attributes of [o'] other than [compression] and [cmd_compress]
    are those of [o]. *)
Definition same_connection (o o' : SSH) : Prop :=
  logger o' = logger o /\ user o' = user o /\ host o' = host o /\
  port o' = port o /\ socket o' = socket o /\ key o' = key o /\
  cmd o' = cmd o.

(** The outcome of a method that ends by waiting for a child: the
    [OSError] when the child could not be started, [otherwise] if it
    ran. *)
Definition unless_not_started {A : Type} (r : proc_result)
    (otherwise : outcome A) : outcome A :=
  match r with
  | NotStarted errno filename => Raise (OSError errno filename)
  | _ => otherwise
  end.

(** [n] calls of [close] in a row. *)
Fixpoint closes (env : Env) (n : nat) : M unit :=
  match n with
  | O => ret tt
  | S n' => close env ;; closes env n'
  end.

(** ** Notions used to describe traces, logs and stripped output *)

(** Every character of [s] is ASCII whitespace. *)
Fixpoint all_space (s : string) : bool :=
  match s with
  | "" => true
  | String c s' => is_space c && all_space s'
  end.

(** The last character of [s], if it has one. *)
Fixpoint last_char (s : string) : option ascii :=
  match s with
  | "" => None
  | String c "" => Some c
  | String _ s' => last_char s'
  end.

(** [s] is empty or ends in a character that is not whitespace. *)
Definition no_trailing_space (s : string) : Prop :=
  match last_char s with
  | Some c => is_space c = false
  | None => True
  end.

(** The object [o] with [compression] and [cmd_compress] replaced. *)
Definition with_negotiation (co : option (option string))
    (cc : option (list string)) (o : SSH) : SSH :=
  mkSSH (logger o) (user o) (host o) (port o) (socket o) (key o) (cmd o)
        co cc.

(** The records of level [lv] in a log. *)
Definition at_level (lv : level) (r : log_record) : Prop :=
  log_level r = lv.

(** ** Sample environments *)

Module Sample.

Definition clock : datetime := mkDatetime 2019 3 14 15 9 26 535897.

Definition home (path : string) : string :=
  match path with
  | String "~" rest => ("/home/alice" ++ rest)%string
  | _ => path
  end.

(** The spec's end-to-end scenario: the key is there, every child exits
    with status 0 and every tool is installed on both ends. *)
Definition healthy : Env :=
  mkEnv clock (String.eqb "/tmp/validkey") home
    (fun _ _ _ => Exited 0 "" "") (fun _ _ _ => true).

(** No key file anywhere. *)
Definition keyless : Env :=
  mkEnv clock (fun _ => false) home
    (fun _ _ _ => Exited 0 "" "") (fun _ _ _ => true).

Definition refusal : string :=
  String.append "ssh: connect to host backup.example port 22: Connection refused"
    (String (ascii_of_nat 13) (String (ascii_of_nat 10) "")).

(** The remote end refuses: every child exits with status 255. *)
Definition refused : Env :=
  mkEnv clock (String.eqb "/tmp/validkey") home
    (fun _ _ _ => Exited 255 "" refusal) (fun _ _ _ => true).

(** The remote end does not answer: every child times out. *)
Definition silent : Env :=
  mkEnv clock (String.eqb "/tmp/validkey") home
    (fun _ _ _ => TimedOut) (fun _ _ _ => true).

(** The control master goes away after the first exit directive: the
    first child succeeds, later ones fail or hang. *)
Definition dropping : Env :=
  mkEnv clock (String.eqb "/tmp/validkey") home
    (fun before _ _ =>
       match before with
       | [] => Exited 0 "" ""
       | [_] => Exited 255 "" "Control socket connect: No such file or directory"
       | _ => TimedOut
       end)
    (fun _ _ _ => true).

(** The compression tool is installed here but not on the remote end. *)
Definition remote_bare : Env :=
  mkEnv clock (String.eqb "/tmp/validkey") home
    (fun _ _ _ => Exited 0 "" "")
    (fun _ _ via => match via with None => true | Some _ => false end).

Definition alice_cmd : list string :=
  ["ssh"; "-i"; "/tmp/validkey"; "-o"; "ControlMaster=auto";
   "-o"; "ControlPersist=1m"; "-o";
   "ControlPath=/tmp/pyznap_alice@backup.example:22_2019-03-14_15:09:26";
   "-p"; "22"; "alice@backup.example"].

(** A constructed session to [alice@backup.example], no call made yet. *)
Definition alice : State :=
  mkState
    (mkSSH (Some "pyznap.ssh") (Some "alice") (Some "backup.example")
       (Some 22%Z)
       (Some "/tmp/pyznap_alice@backup.example:22_2019-03-14_15:09:26")
       (Some "/tmp/validkey") (Some alice_cmd) (Some None)
       (Some alice_cmd))
    [] [].

(** The same outside, some hundred milliseconds later. *)
Definition later_clock : datetime := mkDatetime 2019 3 14 15 9 26 897932.

Definition healthy_later : Env :=
  mkEnv later_clock (String.eqb "/tmp/validkey") home
    (fun _ _ _ => Exited 0 "" "") (fun _ _ _ => true).

(** Two sessions to one endpoint, constructed one after the other
    within one second. *)
Definition first_session : outcome unit * State :=
  construct healthy "alice" "backup.example" (Some "/tmp/validkey") 22
    None [] [].

Definition second_session : outcome unit * State :=
  construct healthy_later "alice" "backup.example" (Some "/tmp/validkey")
    22 None (calls (snd first_session)) (log (snd first_session)).

End Sample.

(** ** Environments in which a child cannot be started *)

Module Faults.

(** Error numbers of [errno.h]. *)
Definition ENOENT : Z := 2.


(** The probe passes; afterwards the transport program is gone from the
    search path. *)
Definition uninstalled : Env :=
  mkEnv Sample.clock (String.eqb "/tmp/validkey") Sample.home
    (fun before _ _ =>
       match before with
       | [] => Exited 0 "" ""
       | _ => NotStarted ENOENT (Some "ssh")
       end)
    (fun _ _ _ => true).

(** There is no transport program at all. *)
Definition no_transport : Env :=
  mkEnv Sample.clock (String.eqb "/tmp/validkey") Sample.home
    (fun _ _ _ => NotStarted ENOENT (Some "ssh"))
    (fun _ _ _ => true).

End Faults.

(** ** Basic facts about the monad and the methods *)

Arguments socket_path : simpl never.
Arguments base_cmd : simpl never.
Arguments session_cmd : simpl never.
Arguments resolve_key : simpl never.
Arguments or_else : simpl never.
Arguments str_int : simpl never.
Arguments strftime : simpl never.
Arguments rstrip : simpl never.

Ltac run_m :=
  unfold bind, ret, raise, try_except, getattr, setattr, logger_log,
    check_output, exists_local, exists_remote in *;
  cbn [fst snd self calls log with_self with_call with_log] in *.

(** Closes a goal that equates two explicit final states. *)
Ltac same_state :=
  unfold with_log, with_call, with_self; cbn [self calls log app];
  rewrite <- ?app_assoc; cbn [app]; reflexivity.


Section MethodFacts.

Variable env : Env.

(** [close] on an object with a command vector: the directive is sent,
    and only a child that cannot be started makes it raise. *)
Lemma close_outcome (st : State) (c : list string) :
  cmd (self st) = Some c ->
  close env st =
    (unless_not_started (run env (calls st) (c ++ ["-O"; "exit"]) 5)
       (Return tt),
     with_call (CheckOutput (c ++ ["-O"; "exit"]) 5) st).
Proof.
  intros Hc. unfold close. run_m. rewrite Hc.
  destruct (run env (calls st) (c ++ ["-O"; "exit"]) 5) as [rc out err| |e f];
    [destruct (rc =? 0)%Z| |]; reflexivity.
Qed.

Lemma close_constructed (st : State) (c : list string) :
  cmd (self st) = Some c ->
  started (run env (calls st) (c ++ ["-O"; "exit"]) 5) = true ->
  close env st =
    (Return tt, with_call (CheckOutput (c ++ ["-O"; "exit"]) 5) st).
Proof.
  intros Hc Hs. rewrite (close_outcome st c Hc).
  destruct (run env (calls st) (c ++ ["-O"; "exit"]) 5);
    [reflexivity | reflexivity | discriminate].
Qed.

Lemma close_not_started (st : State) (c : list string) (e : Z)
    (f : option string) :
  cmd (self st) = Some c ->
  run env (calls st) (c ++ ["-O"; "exit"]) 5 = NotStarted e f ->
  close env st =
    (Raise (OSError e f), with_call (CheckOutput (c ++ ["-O"; "exit"]) 5) st).
Proof.
  intros Hc Hr. rewrite (close_outcome st c Hc). now rewrite Hr.
Qed.

Lemma close_without_cmd (st : State) :
  cmd (self st) = None ->
  close env st = (Raise (AttributeError "cmd"), st).
Proof.
  intros Hc. unfold close. run_m. now rewrite Hc.
Qed.

(** Lines 67-78: the credential check fails. *)
Lemma init_no_key (u h : string) (key_ : option string) (p : Z)
    (compress : option string) (st : State) :
  isfile env (resolve_key env key_) = false ->
  __init__ env u h key_ p compress st =
    (Raise (FileNotFoundError (resolve_key env key_)),
     mkState (after_key env u h key_ p (self st)) (calls st)
       (log st ++ [mkLog ERROR "{} is not a valid ssh key file..."
                     [LStr (resolve_key env key_)]])).
Proof.
  intros Hf. unfold __init__, datetime_now, os_path_isfile,
    os_path_expanduser. run_m. cbn. fold (resolve_key env key_).
  rewrite Hf. reflexivity.
Qed.

(** Lines 80-99 when the probe exits with status 0. *)
Lemma init_probe_ok u h key_ p compress st out err :
  isfile env (resolve_key env key_) = true ->
  run env (calls st) (session_cmd env u h key_ p ++ ["ls"]) 10
    = Exited 0 out err ->
  __init__ env u h key_ p compress st =
    setup_compress env compress
      (with_call (probe_call env u h key_ p) (at_probe env u h key_ p st)).
Proof.
  intros Hf Hr. unfold __init__, datetime_now, os_path_isfile,
    os_path_expanduser. run_m. cbn. fold (resolve_key env key_).
  rewrite Hf. cbn. fold (session_cmd env u h key_ p). rewrite Hr. cbn.
  reflexivity.
Qed.

(** Lines 87-91: the probe exits with another status. *)
Lemma init_probe_failed u h key_ p compress st rc out err :
  isfile env (resolve_key env key_) = true ->
  run env (calls st) (session_cmd env u h key_ p ++ ["ls"]) 10
    = Exited rc out err ->
  rc <> 0%Z ->
  __init__ env u h key_ p compress st =
    (unless_not_started
       (run env (calls st ++ [probe_call env u h key_ p])
          (session_cmd env u h key_ p ++ ["-O"; "exit"]) 5)
       (Raise (SSHException (ArgBytes (rstrip err)))),
     mkState (self (at_probe env u h key_ p st))
       (calls st ++ [probe_call env u h key_ p] ++ [exit_call env u h key_ p])
       (log st ++ [connect_error u h (LBytes (rstrip err))])).
Proof.
  intros Hf Hr Hrc. apply Z.eqb_neq in Hrc.
  unfold __init__, datetime_now, os_path_isfile, os_path_expanduser.
  run_m. cbn. fold (resolve_key env key_).
  rewrite Hf. cbn. fold (session_cmd env u h key_ p). rewrite Hr, Hrc. cbn.
  rewrite close_outcome with (c := session_cmd env u h key_ p)
    by reflexivity.
  unfold with_call, at_probe, exit_call, probe_call, connect_error. cbn.
  rewrite <- app_assoc.
  destruct (run env _ (session_cmd env u h key_ p ++ ["-O"; "exit"]) 5);
    reflexivity.
Qed.

(** Lines 92-96: the probe does not end within its timeout. *)
Lemma init_probe_timeout u h key_ p compress st :
  isfile env (resolve_key env key_) = true ->
  run env (calls st) (session_cmd env u h key_ p ++ ["ls"]) 10 = TimedOut ->
  __init__ env u h key_ p compress st =
    (unless_not_started
       (run env (calls st ++ [probe_call env u h key_ p])
          (session_cmd env u h key_ p ++ ["-O"; "exit"]) 5)
       (Raise (SSHException
                 (ArgTimeoutExpired (session_cmd env u h key_ p ++ ["ls"])
                    10))),
     mkState (self (at_probe env u h key_ p st))
       (calls st ++ [probe_call env u h key_ p] ++ [exit_call env u h key_ p])
       (log st ++ [connect_error u h
          (LExn (TimeoutExpired (session_cmd env u h key_ p ++ ["ls"]) 10))])).
Proof.
  intros Hf Hr.
  unfold __init__, datetime_now, os_path_isfile, os_path_expanduser.
  run_m. cbn. fold (resolve_key env key_).
  rewrite Hf. cbn. fold (session_cmd env u h key_ p). rewrite Hr. cbn.
  rewrite close_outcome with (c := session_cmd env u h key_ p)
    by reflexivity.
  unfold with_call, at_probe, exit_call, probe_call, connect_error. cbn.
  rewrite <- app_assoc.
  destruct (run env _ (session_cmd env u h key_ p ++ ["-O"; "exit"]) 5);
    reflexivity.
Qed.

(** Line 86 when the probe's child cannot be started: the [OSError]
    passes both handlers; nothing is logged and [close] is not called. *)
Lemma init_probe_not_started u h key_ p compress st e f :
  isfile env (resolve_key env key_) = true ->
  run env (calls st) (session_cmd env u h key_ p ++ ["ls"]) 10
    = NotStarted e f ->
  __init__ env u h key_ p compress st =
    (Raise (OSError e f),
     with_call (probe_call env u h key_ p) (at_probe env u h key_ p st)).
Proof.
  intros Hf Hr.
  unfold __init__, datetime_now, os_path_isfile, os_path_expanduser.
  run_m. cbn. fold (resolve_key env key_).
  rewrite Hf. cbn. fold (session_cmd env u h key_ p). rewrite Hr. cbn.
  reflexivity.
Qed.

(** *** Compression negotiation, branch by branch *)

Lemma contains_In (l : list string) (x : string) :
  contains l x = true <-> In x l.
Proof.
  unfold contains. rewrite existsb_exists. split.
  - intros [y [Hy He]]. apply String.eqb_eq in He. now subst.
  - intros H. exists x. split; [assumption | apply String.eqb_refl].
Qed.

Lemma tables_agree (t : string) (st : State) :
  In t algos ->
  getitem compress_cmd t st = (Return t, st) /\
  getitem decompress_cmd t st = (Return (t ++ " -d")%string, st).
Proof.
  unfold algos. cbn [In]. intros H.
  repeat (destruct H as [<- | H]; [split; reflexivity|]). contradiction.
Qed.

Lemma setup_compress_none st c :
  cmd (self st) = Some c ->
  setup_compress env None st =
    (Return tt, with_self (uncompressed c (self st)) st).
Proof.
  intros Hc. unfold setup_compress. run_m. cbn. now rewrite Hc.
Qed.

Lemma setup_compress_unsupported st c lg t :
  cmd (self st) = Some c ->
  logger (self st) = Some lg ->
  ~ In t algos ->
  setup_compress env (Some t) st =
    (Return tt,
     mkState (uncompressed c (self st)) (calls st)
       (log st ++ [mkLog WARNING
          "Compression method {:s} not supported. Will continue without..."
          [LStr t]])).
Proof.
  intros Hc Hl Ht. rewrite <- contains_In in Ht.
  apply not_true_is_false in Ht.
  unfold setup_compress. run_m. cbn -[contains]. rewrite Hc. cbn -[contains].
  rewrite Ht. cbn. rewrite Hl. same_state.
Qed.

Lemma setup_compress_local_missing st c lg t :
  cmd (self st) = Some c ->
  logger (self st) = Some lg ->
  In t algos ->
  exists_ env (calls st) t None = false ->
  setup_compress env (Some t) st =
    (Return tt,
     mkState (uncompressed c (self st)) (calls st ++ [Exists t None])
       (log st ++ [mkLog WARNING
          "Compression algo {:s} does not exist, continuing without compression..."
          [LStr t]])).
Proof.
  intros Hc Hl Ht He. rewrite <- contains_In in Ht.
  unfold setup_compress. run_m. cbn -[contains]. rewrite Hc. cbn -[contains].
  rewrite Ht. cbn. rewrite He. cbn. rewrite Hl. same_state.
Qed.

Lemma setup_compress_remote_missing st c lg u h t :
  cmd (self st) = Some c ->
  logger (self st) = Some lg ->
  user (self st) = Some u ->
  host (self st) = Some h ->
  In t algos ->
  exists_ env (calls st) t None = true ->
  exists_ env (calls st ++ [Exists t None]) t
    (Some (uncompressed c (self st))) = false ->
  setup_compress env (Some t) st =
    (Return tt,
     mkState (uncompressed c (self st))
       (calls st ++ [Exists t None]
          ++ [Exists t (Some (uncompressed c (self st)))])
       (log st ++ [mkLog WARNING
          "Compression algo {:s} does not exist on {:s}@{:s}, continuingwithout compression..."
          [LStr t; LStr u; LStr h]])).
Proof.
  intros Hc Hl Hu Hh Ht He Hr. rewrite <- contains_In in Ht.
  unfold setup_compress. run_m. cbn -[contains]. rewrite Hc. cbn -[contains].
  rewrite Ht. cbn. rewrite He. cbn. fold (uncompressed c (self st)).
  rewrite Hr. cbn. rewrite Hl. cbn. rewrite Hu. cbn. rewrite Hh. cbn.
  same_state.
Qed.

Lemma setup_compress_available st c t :
  cmd (self st) = Some c ->
  In t algos ->
  exists_ env (calls st) t None = true ->
  exists_ env (calls st ++ [Exists t None]) t
    (Some (uncompressed c (self st))) = true ->
  setup_compress env (Some t) st =
    (Return tt,
     mkState (compressed t c (self st))
       (calls st ++ [Exists t None]
          ++ [Exists t (Some (uncompressed c (self st)))])
       (log st)).
Proof.
  intros Hc Ht He Hr. pose proof Ht as Hin. rewrite <- contains_In in Ht.
  unfold setup_compress. run_m. cbn -[contains getitem]. rewrite Hc.
  cbn -[contains getitem].
  rewrite Ht. cbn -[getitem]. rewrite He. cbn -[getitem].
  fold (uncompressed c (self st)).
  rewrite Hr. cbn -[getitem].
  rewrite (proj1 (tables_agree t _ Hin)). cbn -[getitem].
  rewrite Hc. cbn -[getitem].
  rewrite (proj2 (tables_agree t _ Hin)). cbn -[getitem].
  same_state.
Qed.

(** With the attributes of a constructed session in place, negotiation
    returns, in one of two shapes. *)
Lemma setup_compress_cases st c lg u h ty :
  cmd (self st) = Some c ->
  logger (self st) = Some lg ->
  user (self st) = Some u ->
  host (self st) = Some h ->
  exists st',
    setup_compress env ty st = (Return tt, st') /\
    (self st' = uncompressed c (self st) \/
     exists t, ty = Some t /\ In t algos /\
               self st' = compressed t c (self st)).
Proof.
  intros Hc Hl Hu Hh. destruct ty as [t|].
  - destruct (contains algos t) eqn:Hin.
    + apply contains_In in Hin.
      destruct (exists_ env (calls st) t None) eqn:He.
      * destruct (exists_ env (calls st ++ [Exists t None]) t
                    (Some (uncompressed c (self st)))) eqn:Hr.
        -- eexists. split.
           ++ now apply setup_compress_available with (c := c).
           ++ right. exists t. now repeat split.
        -- eexists. split.
           ++ now apply setup_compress_remote_missing with (c := c) (lg := lg) (u := u) (h := h).
           ++ now left.
      * eexists. split.
        -- now apply setup_compress_local_missing with (c := c) (lg := lg).
        -- now left.
    + assert (Hn : ~ In t algos).
      { intros H. apply contains_In in H. congruence. }
      eexists. split.
      * now apply setup_compress_unsupported with (c := c) (lg := lg).
      * now left.
  - eexists. split.
    + now apply setup_compress_none with (c := c).
    + now left.
Qed.

(** *** What negotiation leaves alone *)

Lemma getitem_state d k st : snd (getitem d k st) = st.
Proof.
  induction d as [|[k' v] d IH]; cbn.
  - reflexivity.
  - now destruct (String.eqb k' k).
Qed.

Lemma setup_compress_frame st ty :
  same_connection (self st) (self (snd (setup_compress env ty st))).
Proof.
  destruct st as [[lg u h p s k c co cc] cl lo].
  unfold setup_compress, same_connection. run_m.
  cbn -[contains getitem].
  destruct c as [c|]; cbn -[contains getitem]; [|now repeat split].
  destruct ty as [t|]; cbn -[contains getitem]; [|now repeat split].
  destruct (contains algos t); cbn -[contains getitem].
  - destruct (exists_ env cl t None); cbn -[contains getitem].
    + destruct (exists_ env _ t (Some _)); cbn -[contains getitem].
      * match goal with
        | |- context [getitem compress_cmd t ?s] =>
            pose proof (getitem_state compress_cmd t s) as H1;
            destruct (getitem compress_cmd t s) as [[x|e] s1]
        end; cbn -[contains getitem] in *; subst;
          cbn -[contains getitem]; [|now repeat split].
        match goal with
        | |- context [getitem decompress_cmd t ?s] =>
            pose proof (getitem_state decompress_cmd t s) as H2;
            destruct (getitem decompress_cmd t s) as [[y|e] s2]
        end; cbn -[contains getitem] in *; subst;
          cbn -[contains getitem]; now repeat split.
      * destruct lg; cbn; [|now repeat split].
        destruct u; cbn; [|now repeat split].
        destruct h; cbn; now repeat split.
    + destruct lg; cbn; now repeat split.
  - destruct lg; cbn; now repeat split.
Qed.


(** Past the credential check the command vector and the socket path
    are in place, whatever follows. *)
Lemma init_cmd_socket u h key_ p compress st :
  isfile env (resolve_key env key_) = true ->
  cmd (self (snd (__init__ env u h key_ p compress st)))
    = Some (session_cmd env u h key_ p) /\
  socket (self (snd (__init__ env u h key_ p compress st)))
    = Some (socket_path u h p (now env)).
Proof.
  intros Hf.
  destruct (run env (calls st) (session_cmd env u h key_ p ++ ["ls"]) 10)
    as [rc out err| |e f] eqn:Hr.
  - destruct (Z.eq_dec rc 0) as [->|Hrc].
    + rewrite (init_probe_ok u h key_ p compress st out err Hf Hr).
      destruct (setup_compress_frame
                  (with_call (probe_call env u h key_ p)
                     (at_probe env u h key_ p st)) compress)
        as [_ [_ [_ [_ [Hs [_ Hcmd]]]]]].
      rewrite Hcmd, Hs. split; reflexivity.
    + rewrite (init_probe_failed u h key_ p compress st rc out err
                 Hf Hr Hrc).
      split; reflexivity.
  - rewrite (init_probe_timeout u h key_ p compress st Hf Hr).
    split; reflexivity.
  - rewrite (init_probe_not_started u h key_ p compress st e f Hf Hr).
    split; reflexivity.
Qed.

(** The socket path is assigned on every path through [__init__]. *)
Lemma init_socket u h key_ p compress st :
  socket (self (snd (__init__ env u h key_ p compress st)))
    = Some (socket_path u h p (now env)).
Proof.
  destruct (isfile env (resolve_key env key_)) eqn:Hf.
  - now apply init_cmd_socket.
  - now rewrite (init_no_key u h key_ p compress st Hf).
Qed.

(** [__init__] returns only past the credential check and a probe that
    exits with status 0. *)
Lemma init_returns u h key_ p compress st :
  fst (__init__ env u h key_ p compress st) = Return tt ->
  isfile env (resolve_key env key_) = true /\
  exists out err,
    run env (calls st) (session_cmd env u h key_ p ++ ["ls"]) 10
      = Exited 0 out err.
Proof.
  intros Hr.
  destruct (isfile env (resolve_key env key_)) eqn:Hf.
  - split; [reflexivity|].
    destruct (run env (calls st) (session_cmd env u h key_ p ++ ["ls"]) 10)
      as [rc out err| |e f] eqn:Hrun.
    + destruct (Z.eq_dec rc 0) as [->|Hrc].
      * now exists out, err.
      * rewrite (init_probe_failed u h key_ p compress st rc out err
                   Hf Hrun Hrc) in Hr.
        cbn [fst] in Hr. destruct (run env _ _ 5); discriminate.
    + rewrite (init_probe_timeout u h key_ p compress st Hf Hrun) in Hr.
      cbn [fst] in Hr. destruct (run env _ _ 5); discriminate.
    + rewrite (init_probe_not_started u h key_ p compress st e f Hf Hrun)
        in Hr.
      discriminate.
  - rewrite (init_no_key u h key_ p compress st Hf) in Hr. discriminate.
Qed.

End MethodFacts.

(** ** Strings: cancellation and splitting *)

Section StringFacts.

Local Open Scope string_scope.

Lemma some_eq {A : Type} (x y : A) : Some x = Some y -> x = y.
Proof. now intros [= ->]. Qed.

Lemma append_assoc (a b c : string) : (a ++ b) ++ c = a ++ (b ++ c).
Proof.
  induction a as [|x a IH]; cbn; [reflexivity | now rewrite IH].
Qed.

Lemma append_inv_head (s a b : string) : s ++ a = s ++ b -> a = b.
Proof.
  induction s as [|x s IH]; cbn; intros H; [assumption|].
  injection H as H. now apply IH.
Qed.

Lemma length_append (a b : string) :
  String.length (a ++ b) = (String.length a + String.length b)%nat.
Proof.
  induction a as [|x a IH]; cbn; [reflexivity | now rewrite IH].
Qed.

(** Two strings that end in tails of one length agree part by part. *)
Lemma append_inj_tail (a1 a2 t1 t2 : string) :
  String.length t1 = String.length t2 ->
  a1 ++ t1 = a2 ++ t2 ->
  a1 = a2 /\ t1 = t2.
Proof.
  intros Hlen. revert a2.
  induction a1 as [|x a1 IH]; intros [|y a2] H; cbn in H.
  - now split.
  - apply (f_equal String.length) in H. cbn in H.
    rewrite length_append in H. lia.
  - apply (f_equal String.length) in H. cbn in H.
    rewrite length_append in H. lia.
  - injection H as -> H. destruct (IH a2 H) as [-> ->]. now split.
Qed.

Lemma has_char_append (c : ascii) (a b : string) :
  has_char c (a ++ b) = has_char c a || has_char c b.
Proof.
  induction a as [|x a IH]; cbn; [reflexivity|].
  now rewrite IH, orb_assoc.
Qed.

(** A string splits in one way at the last occurrence of [c]. *)
Lemma split_at_last (c : ascii) (a1 a2 b1 b2 : string) :
  has_char c b1 = false ->
  has_char c b2 = false ->
  a1 ++ String c b1 = a2 ++ String c b2 ->
  a1 = a2 /\ b1 = b2.
Proof.
  intros H1 H2. revert a2.
  induction a1 as [|x a1 IH]; intros [|y a2] H; cbn in H.
  - injection H as H. now split.
  - injection H as -> H. rewrite H, has_char_append in H1. cbn in H1.
    rewrite Ascii.eqb_refl, orb_true_r in H1. discriminate.
  - injection H as -> H. rewrite <- H, has_char_append in H2. cbn in H2.
    rewrite Ascii.eqb_refl, orb_true_r in H2. discriminate.
  - injection H as -> H. destruct (IH a2 H) as [-> ->]. now split.
Qed.

End StringFacts.

(** ** Decimal renderings *)

Section DecimalFacts.

Lemma uint_digits_no_colon (d : Decimal.uint) :
  has_char ":" (NilEmpty.string_of_uint d) = false.
Proof.
  induction d; cbn; assumption || reflexivity.
Qed.

Lemma str_int_no_colon (n : Z) : has_char ":" (str_int n) = false.
Proof.
  unfold str_int, NilZero.string_of_int, NilZero.string_of_uint.
  destruct (Z.to_int n) as [d|d]; destruct d; cbn;
    try reflexivity; apply uint_digits_no_colon.
Qed.

Lemma to_int_proper (n : Z) :
  Z.to_int n <> Decimal.Pos Decimal.Nil /\
  Z.to_int n <> Decimal.Neg Decimal.Nil.
Proof.
  destruct n as [|q|q]; cbn; split; try discriminate;
    intros [= H]; now apply (Unsigned.to_uint_nonnil q).
Qed.

Lemma str_int_inj (n m : Z) : str_int n = str_int m -> n = m.
Proof.
  unfold str_int. intros H.
  destruct (to_int_proper n) as [Hn1 Hn2].
  destruct (to_int_proper m) as [Hm1 Hm2].
  apply DecimalZ.to_int_inj.
  pose proof (NilZero.isi _ Hn1 Hn2) as E1.
  pose proof (NilZero.isi _ Hm1 Hm2) as E2.
  rewrite H in E1. congruence.
Qed.

Lemma digit_inj (a b : Z) : digit a = digit b -> (a mod 10 = b mod 10)%Z.
Proof.
  unfold digit. intros H.
  pose proof (Z.mod_pos_bound a 10 ltac:(lia)) as Ha.
  pose proof (Z.mod_pos_bound b 10 ltac:(lia)) as Hb.
  apply (f_equal nat_of_ascii) in H.
  rewrite !nat_ascii_embedding in H by lia. lia.
Qed.

Lemma pad2_inj (a b : Z) :
  (0 <= a < 100)%Z -> (0 <= b < 100)%Z -> pad2 a = pad2 b -> a = b.
Proof.
  unfold pad2. intros Ha Hb [= H1 H2].
  apply digit_inj in H1, H2. Z.div_mod_to_equations. lia.
Qed.

Lemma pad4_inj (a b : Z) :
  (0 <= a < 10000)%Z -> (0 <= b < 10000)%Z -> pad4 a = pad4 b -> a = b.
Proof.
  unfold pad4. intros Ha Hb [= H1 H2 H3 H4].
  apply digit_inj in H1, H2, H3, H4. Z.div_mod_to_equations. lia.
Qed.

Lemma strftime_length (t : datetime) : String.length (strftime t) = 19%nat.
Proof. reflexivity. Qed.

Lemma valid_datetime_ranges (t : datetime) :
  valid_datetime t = true ->
  (0 <= year t < 10000 /\ 0 <= month t < 100 /\ 0 <= day t < 100 /\
   0 <= hour t < 100 /\ 0 <= minute t < 100 /\ 0 <= second t < 100)%Z.
Proof.
  unfold valid_datetime. rewrite !andb_true_iff.
  rewrite !Z.leb_le, !Z.ltb_lt. lia.
Qed.

(** [strftime] tells apart instants that differ in a whole second. *)
Lemma strftime_inj (t1 t2 : datetime) :
  valid_datetime t1 = true ->
  valid_datetime t2 = true ->
  strftime t1 = strftime t2 ->
  to_seconds t1 = to_seconds t2.
Proof.
  intros V1 V2 H.
  apply valid_datetime_ranges in V1, V2.
  unfold strftime, pad4, pad2 in H. cbn [append] in H.
  injection H as Y1 Y2 Y3 Y4 M1 M2 D1 D2 h1 h2 m1 m2 s1 s2.
  assert (year t1 = year t2)
    by (apply pad4_inj; [lia | lia | unfold pad4; congruence]).
  assert (month t1 = month t2)
    by (apply pad2_inj; [lia | lia | unfold pad2; congruence]).
  assert (day t1 = day t2)
    by (apply pad2_inj; [lia | lia | unfold pad2; congruence]).
  assert (hour t1 = hour t2)
    by (apply pad2_inj; [lia | lia | unfold pad2; congruence]).
  assert (minute t1 = minute t2)
    by (apply pad2_inj; [lia | lia | unfold pad2; congruence]).
  assert (second t1 = second t2)
    by (apply pad2_inj; [lia | lia | unfold pad2; congruence]).
  unfold to_seconds. congruence.
Qed.

Lemma strftime_to_seconds (t : datetime) :
  strftime (to_seconds t) = strftime t.
Proof. reflexivity. Qed.

(** The socket path, read back: equal paths come from equal instants
    (to the second) and, when no host holds an [@], equal endpoints. *)
Lemma socket_path_inj (u1 h1 u2 h2 : string) (p1 p2 : Z)
    (t1 t2 : datetime) :
  valid_datetime t1 = true ->
  valid_datetime t2 = true ->
  socket_path u1 h1 p1 t1 = socket_path u2 h2 p2 t2 ->
  to_seconds t1 = to_seconds t2 /\
  (has_char "@" h1 = false -> has_char "@" h2 = false ->
   u1 = u2 /\ h1 = h2 /\ p1 = p2).
Proof.
  intros V1 V2 H. unfold socket_path in H.
  apply append_inv_head in H.
  rewrite <- !append_assoc in H.
  rewrite !(append_assoc _ "_" (strftime _)) in H.
  apply append_inj_tail in H.
  2: { cbn [append String.length]. rewrite !strftime_length. reflexivity. }
  destruct H as [Hx Ht]. apply (append_inv_head "_") in Ht.
  split; [now apply strftime_inj|].
  intros N1 N2.
  rewrite !(append_assoc _ ":" (str_int _)) in Hx. cbn [append] in Hx.
  apply split_at_last in Hx; try apply str_int_no_colon.
  destruct Hx as [Hx Hp]. apply str_int_inj in Hp.
  rewrite !(append_assoc _ "@" _) in Hx. cbn [append] in Hx.
  apply split_at_last in Hx; try assumption.
  destruct Hx as [-> ->]. now repeat split.
Qed.

End DecimalFacts.

(** ** The credential check *)

(** C1.  When the resolved key path ([key], or the expansion of
    [~/.ssh/id_rsa] when no key is given) is not an existing regular file,
    [__init__] raises [FileNotFoundError] on that path; no child process
    has been spawned and no capability check made (the calls are those
    made before, so nothing has opened a connection or created the control
    socket), and the command vector has not been assigned. *)
Theorem init_missing_key_fails (env : Env) (u h : string)
    (key_ : option string) (p : Z) (compress : option string) (st : State) :
  isfile env (resolve_key env key_) = false ->
  let r := __init__ env u h key_ p compress st in
  fst r = Raise (FileNotFoundError (resolve_key env key_)) /\
  calls (snd r) = calls st /\
  cmd (self (snd r)) = cmd (self st) /\
  key (self (snd r)) = Some (resolve_key env key_) /\
  (key_ = None ->
   fst r = Raise (FileNotFoundError (expanduser env "~/.ssh/id_rsa"))).
Proof.
  intros Hf r. subst r. rewrite init_no_key by assumption. cbn.
  repeat split. now intros ->.
Qed.

Lemma init_missing_key_fails_witness :
  isfile Sample.keyless (resolve_key Sample.keyless None) = false /\
  fst (__init__ Sample.keyless "alice" "backup.example" None 22 (Some "gzip")
         (mkState new_object [] []))
    = Raise (FileNotFoundError "/home/alice/.ssh/id_rsa") /\
  calls (snd (__init__ Sample.keyless "alice" "backup.example" None 22
                (Some "gzip") (mkState new_object [] []))) = [].
Proof.
  split; [reflexivity|].
  pose proof (init_missing_key_fails Sample.keyless "alice" "backup.example"
                None 22 (Some "gzip") (mkState new_object [] [])
                eq_refl) as H.
  cbv zeta in H. destruct H as [H1 [H2 _]]. split; [exact H1 | exact H2].
Defined.

(** ** The liveness probe *)




(** ** Closing *)

(** C6, as stated, fails: a session is constructed, the transport
    program then goes away, and [close] raises the [OSError] of the child
    it cannot start (a [FileNotFoundError], error number 2, on [ssh]):
    its handler takes [CalledProcessError] and [TimeoutExpired] only. *)
Lemma close_raises_when_child_not_started :
  fst (construct Faults.uninstalled "alice" "backup.example"
         (Some "/tmp/validkey") 22 None [] []) = Return tt /\
  fst (close Faults.uninstalled
         (snd (construct Faults.uninstalled "alice" "backup.example"
                 (Some "/tmp/validkey") 22 None [] [])))
    = Raise (OSError 2 (Some "ssh")).
Proof.
  split; vm_compute; reflexivity.
Qed.

(** C6, amended.  On a session whose command vector is [c], [close]
    spawns [c + ['-O', 'exit']] with a timeout of 5.  Whenever that child
    is started, [close] returns whatever the child does (exit 0, another
    status, no end in time) and leaves the object as it was; hence any
    number of calls in a row whose children are started return normally,
    each sending the same directive.  When the child cannot be started,
    [close] raises the [OSError] of the operating system. *)
Theorem close_idempotent (env : Env) (st : State) (c : list string)
    (n : nat) :
  cmd (self st) = Some c ->
  let directive := CheckOutput (c ++ ["-O"; "exit"]) 5 in
  let child before := run env before (c ++ ["-O"; "exit"]) 5 in
  (started (child (calls st)) = true ->
   close env st = (Return tt, with_call directive st)) /\
  (forall e f, child (calls st) = NotStarted e f ->
   close env st = (Raise (OSError e f), with_call directive st)) /\
  ((forall i, (i < n)%nat ->
      started (child (calls st ++ repeat directive i)) = true) ->
   fst (closes env n st) = Return tt /\
   self (snd (closes env n st)) = self st /\
   calls (snd (closes env n st)) = calls st ++ repeat directive n).
Proof.
  intros Hc directive child.
  split; [intros Hs; now apply close_constructed|].
  split; [intros e f Hr; now apply close_not_started|].
  revert st Hc. induction n as [|n IH]; intros st Hc Hall.
  - cbn. repeat split. now rewrite app_nil_r.
  - cbn [closes]. unfold bind.
    assert (H0 : started (child (calls st)) = true).
    { specialize (Hall O ltac:(lia)). cbn [repeat] in Hall.
      now rewrite app_nil_r in Hall. }
    rewrite (close_constructed env st c Hc H0). fold directive.
    destruct (IH (with_call directive st) Hc) as [H1 [H2 H3]].
    { intros i Hi. specialize (Hall (S i) ltac:(lia)).
      cbn [with_call calls repeat] in *. now rewrite <- app_assoc. }
    repeat split; [exact H1 | exact H2 |].
    rewrite H3. cbn. now rewrite <- app_assoc.
Qed.

Lemma close_idempotent_witness :
  cmd (self Sample.alice) = Some Sample.alice_cmd /\
  fst (closes Sample.dropping 3 Sample.alice) = Return tt /\
  calls (snd (closes Sample.dropping 3 Sample.alice))
    = repeat (CheckOutput (Sample.alice_cmd ++ ["-O"; "exit"]) 5) 3.
Proof.
  split; [reflexivity|].
  destruct (close_idempotent Sample.dropping Sample.alice Sample.alice_cmd 3
              eq_refl) as [_ [_ H]].
  destruct H as [H1 [_ H2]].
  - intros i Hi.
    destruct i as [|[|[|i]]]; [reflexivity | reflexivity | reflexivity | lia].
  - split; [exact H1 | exact H2].
Defined.

(** C10.  When the constructor stops at the credential check, the object
    it leaves has no [cmd] attribute; [close] on it, and so [__del__],
    raises [AttributeError]: the lookup of [self.cmd] fails, and the
    handler of [close] takes only [CalledProcessError] and
    [TimeoutExpired]. *)
Theorem close_after_credential_failure (env : Env) (u h : string)
    (key_ : option string) (p : Z) (compress : option string)
    (before : list call) (lg : list log_record) :
  isfile env (resolve_key env key_) = false ->
  let r := construct env u h key_ p compress before lg in
  fst r = Raise (FileNotFoundError (resolve_key env key_)) /\
  cmd (self (snd r)) = None /\
  close env (snd r) = (Raise (AttributeError "cmd"), snd r) /\
  __del__ env (snd r) = (Raise (AttributeError "cmd"), snd r).
Proof.
  intros Hf r. subst r. unfold construct, __del__.
  rewrite init_no_key by assumption. cbn [fst snd].
  repeat split; now apply close_without_cmd.
Qed.

Lemma close_after_credential_failure_witness :
  isfile Sample.keyless (resolve_key Sample.keyless (Some "/nonexistent"))
    = false /\
  fst (__del__ Sample.keyless
         (snd (construct Sample.keyless "alice" "backup.example"
                 (Some "/nonexistent") 22 None [] [])))
    = Raise (AttributeError "cmd").
Proof.
  split; [reflexivity|].
  destruct (close_after_credential_failure Sample.keyless "alice"
              "backup.example" (Some "/nonexistent") 22 None [] [] eq_refl)
    as [_ [_ [_ H]]].
  now rewrite H.
Defined.

(** ** The command vectors *)

(** C7.  Once the key file is found, [self.cmd] is the twelve tokens
    [ssh -i <key> -o ControlMaster=auto -o ControlPersist=1m
     -o ControlPath=<socket> -p <port> <user>@<host>], whatever the probe
    and the negotiation then do; [<socket>] is [self.socket].  Its first
    token is the transport binary and its last is the target. *)
Theorem base_command_vector (env : Env) (u h : string)
    (key_ : option string) (p : Z) (compress : option string) (st : State) :
  isfile env (resolve_key env key_) = true ->
  let o := self (snd (__init__ env u h key_ p compress st)) in
  let c := ["ssh"; "-i"; resolve_key env key_; "-o"; "ControlMaster=auto";
            "-o"; "ControlPersist=1m"; "-o";
            ("ControlPath=" ++ socket_path u h p (now env))%string;
            "-p"; str_int p; (u ++ "@" ++ h)%string] in
  cmd o = Some c /\
  socket o = Some (socket_path u h p (now env)) /\
  hd_error c = Some "ssh" /\
  last c "" = (u ++ "@" ++ h)%string.
Proof.
  intros Hf o c. subst o.
  pose proof (init_cmd_socket env u h key_ p compress st Hf) as Hc.
  destruct Hc as [Hc Hs]. repeat split; assumption || reflexivity.
Qed.

Lemma base_command_vector_witness :
  isfile Sample.healthy (resolve_key Sample.healthy (Some "/tmp/validkey"))
    = true /\
  cmd (self (snd (__init__ Sample.healthy "alice" "backup.example"
                    (Some "/tmp/validkey") 22 (Some "gzip")
                    (mkState new_object [] []))))
    = Some ["ssh"; "-i"; "/tmp/validkey"; "-o"; "ControlMaster=auto";
            "-o"; "ControlPersist=1m"; "-o";
            "ControlPath=/tmp/pyznap_alice@backup.example:22_2019-03-14_15:09:26";
            "-p"; "22"; "alice@backup.example"].
Proof.
  split; [reflexivity|].
  destruct (base_command_vector Sample.healthy "alice" "backup.example"
              (Some "/tmp/validkey") 22 (Some "gzip")
              (mkState new_object [] []) eq_refl) as [H _].
  exact H.
Defined.

(** ** Compression negotiation *)

(** C3.  On a session whose command vector is [c], a request for an
    algorithm [t] of [gzip, lzop, bzip2, pigz, xz] that [exists] reports
    present both locally and through the session makes [setup_compress]
    return with [compression = t] and
    [cmd_compress = [t, '|'] + c + [t ++ ' -d', '|']]: the compress
    token is the binary's name and the decompress token is that name with
    [-d] appended. *)
Theorem setup_compress_negotiated (env : Env) (st : State)
    (c : list string) (t : string) :
  cmd (self st) = Some c ->
  In t ["gzip"; "lzop"; "bzip2"; "pigz"; "xz"] ->
  exists_ env (calls st) t None = true ->
  exists_ env (calls st ++ [Exists t None]) t
    (Some (uncompressed c (self st))) = true ->
  let r := setup_compress env (Some t) st in
  fst r = Return tt /\
  compression (self (snd r)) = Some (Some t) /\
  cmd_compress (self (snd r))
    = Some ([t; "|"] ++ c ++ [(t ++ " -d")%string; "|"]) /\
  cmd (self (snd r)) = Some c.
Proof.
  intros Hc Ht He Hr r. subst r.
  rewrite (setup_compress_available env st c t Hc Ht He Hr).
  cbn. repeat split. assumption.
Qed.

Lemma setup_compress_negotiated_witness :
  cmd (self Sample.alice) = Some Sample.alice_cmd /\
  In "gzip" ["gzip"; "lzop"; "bzip2"; "pigz"; "xz"] /\
  exists_ Sample.healthy (calls Sample.alice) "gzip" None = true /\
  exists_ Sample.healthy (calls Sample.alice ++ [Exists "gzip" None]) "gzip"
    (Some (uncompressed Sample.alice_cmd (self Sample.alice))) = true /\
  cmd_compress (self (snd (setup_compress Sample.healthy (Some "gzip")
                             Sample.alice)))
    = Some (["gzip"; "|"] ++ Sample.alice_cmd ++ ["gzip -d"; "|"]).
Proof.
  assert (Hin : In "gzip" ["gzip"; "lzop"; "bzip2"; "pigz"; "xz"])
    by (left; reflexivity).
  repeat (split; [reflexivity || exact Hin|]).
  destruct (setup_compress_negotiated Sample.healthy Sample.alice
              Sample.alice_cmd "gzip" eq_refl Hin eq_refl eq_refl)
    as [_ [_ [H _]]].
  exact H.
Defined.

(** C4.  When the key file exists and the probe exits with status 0, a
    request that is absent, names an algorithm outside the supported
    list, or names a supported one that [exists] reports missing locally,
    or present locally and missing through the session, still lets
    [__init__] return: [compression] is [None] and [cmd_compress] is the
    command vector [cmd]. *)
Theorem init_without_compression (env : Env) (u h : string)
    (key_ : option string) (p : Z) (compress : option string) (st : State)
    (out err : string) :
  let base := session_cmd env u h key_ p in
  let probe := CheckOutput (base ++ ["ls"]) 10 in
  let o := uncompressed base (set_cmd base (after_key env u h key_ p (self st))) in
  isfile env (resolve_key env key_) = true ->
  run env (calls st) (base ++ ["ls"]) 10 = Exited 0 out err ->
  (compress = None \/
   (exists t, compress = Some t /\ ~ In t algos) \/
   (exists t, compress = Some t /\ In t algos /\
      exists_ env (calls st ++ [probe]) t None = false) \/
   (exists t, compress = Some t /\ In t algos /\
      exists_ env (calls st ++ [probe]) t None = true /\
      exists_ env (calls st ++ [probe] ++ [Exists t None]) t (Some o)
        = false)) ->
  let r := __init__ env u h key_ p compress st in
  fst r = Return tt /\
  compression (self (snd r)) = Some None /\
  cmd (self (snd r)) = Some base /\
  cmd_compress (self (snd r)) = Some base.
Proof.
  intros base probe o Hf Hr Hcase r. subst r.
  rewrite (init_probe_ok env u h key_ p compress st out err Hf Hr).
  set (st1 := with_call (probe_call env u h key_ p)
                (at_probe env u h key_ p st)).
  assert (Hc : cmd (self st1) = Some base) by reflexivity.
  assert (Hl : logger (self st1) = Some "pyznap.ssh") by reflexivity.
  assert (Hu : user (self st1) = Some u) by reflexivity.
  assert (Hh : host (self st1) = Some h) by reflexivity.
  destruct Hcase as [-> | [[t [-> Hn]] | [[t [-> [Hin He]]]
                                         | [t [-> [Hin [He Hm]]]]]]].
  - rewrite (setup_compress_none env st1 base Hc). now cbn.
  - rewrite (setup_compress_unsupported env st1 base _ t Hc Hl Hn). now cbn.
  - rewrite (setup_compress_local_missing env st1 base _ t Hc Hl Hin He).
    now cbn.
  - rewrite (setup_compress_remote_missing env st1 base _ u h t
               Hc Hl Hu Hh Hin He).
    + now cbn.
    + cbn [st1 calls with_call at_probe with_self]. rewrite <- app_assoc.
      exact Hm.
Qed.

Lemma init_without_compression_witness :
  isfile Sample.remote_bare
    (resolve_key Sample.remote_bare (Some "/tmp/validkey")) = true /\
  fst (__init__ Sample.remote_bare "alice" "backup.example"
         (Some "/tmp/validkey") 22 (Some "xz") (mkState new_object [] []))
    = Return tt /\
  compression (self (snd (__init__ Sample.remote_bare "alice"
         "backup.example" (Some "/tmp/validkey") 22 (Some "xz")
         (mkState new_object [] [])))) = Some None /\
  cmd_compress (self (snd (__init__ Sample.remote_bare "alice"
         "backup.example" (Some "/tmp/validkey") 22 (Some "xz")
         (mkState new_object [] [])))) = Some Sample.alice_cmd.
Proof.
  split; [reflexivity|].
  assert (Hin : In "xz" algos) by (do 4 right; left; reflexivity).
  destruct (init_without_compression Sample.remote_bare "alice"
              "backup.example" (Some "/tmp/validkey") 22 (Some "xz")
              (mkState new_object [] []) "" "" eq_refl eq_refl
              (or_intror (or_intror (or_intror
                 (ex_intro _ "xz"
                    (conj eq_refl (conj Hin (conj eq_refl eq_refl))))))))
    as [H1 [H2 [_ H3]]].
  split; [exact H1 | split; [exact H2 | exact H3]].
Defined.

(** C5.  Whenever [__init__] returns, [cmd_compress] holds [cmd] as a
    contiguous run of tokens: it is [cmd] itself (no compression), or
    [cmd] between the two tokens [t, '|'] and the two tokens
    [t ++ ' -d', '|'] (compression [t]); no token of [cmd] is dropped or
    changed. *)
Theorem pipeline_wraps_base (env : Env) (u h : string)
    (key_ : option string) (p : Z) (compress : option string) (st : State) :
  let r := __init__ env u h key_ p compress st in
  fst r = Return tt ->
  exists c pl,
    cmd (self (snd r)) = Some c /\
    cmd_compress (self (snd r)) = Some pl /\
    wraps pl c /\
    ((compression (self (snd r)) = Some None /\ pl = c) \/
     (exists t, compression (self (snd r)) = Some (Some t) /\
                pl = [t; "|"] ++ c ++ [(t ++ " -d")%string; "|"])).
Proof.
  intros r Hret. subst r.
  destruct (init_returns env u h key_ p compress st Hret)
    as [Hf [out [err Hr]]].
  rewrite (init_probe_ok env u h key_ p compress st out err Hf Hr).
  set (st1 := with_call (probe_call env u h key_ p)
                (at_probe env u h key_ p st)).
  destruct (setup_compress_cases env st1 (session_cmd env u h key_ p)
              "pyznap.ssh" u h compress eq_refl eq_refl eq_refl eq_refl)
    as [st' [-> [Hs | [t [_ [_ Hs]]]]]]; cbn [fst snd]; rewrite Hs.
  - exists (session_cmd env u h key_ p), (session_cmd env u h key_ p).
    repeat split.
    + exists [], []. cbn. now rewrite app_nil_r.
    + left. split; reflexivity.
  - exists (session_cmd env u h key_ p),
      ([t; "|"] ++ session_cmd env u h key_ p ++ [(t ++ " -d")%string; "|"]).
    repeat split.
    + exists [t; "|"], [(t ++ " -d")%string; "|"]. reflexivity.
    + right. exists t. split; reflexivity.
Qed.

Lemma pipeline_wraps_base_witness :
  fst (__init__ Sample.healthy "alice" "backup.example"
         (Some "/tmp/validkey") 22 (Some "gzip") (mkState new_object [] []))
    = Return tt /\
  exists c pl,
    cmd (self (snd (__init__ Sample.healthy "alice" "backup.example"
           (Some "/tmp/validkey") 22 (Some "gzip")
           (mkState new_object [] [])))) = Some c /\
    cmd_compress (self (snd (__init__ Sample.healthy "alice" "backup.example"
           (Some "/tmp/validkey") 22 (Some "gzip")
           (mkState new_object [] [])))) = Some pl /\
    wraps pl c.
Proof.
  split; [reflexivity|].
  destruct (pipeline_wraps_base Sample.healthy "alice" "backup.example"
              (Some "/tmp/validkey") 22 (Some "gzip")
              (mkState new_object [] []) eq_refl)
    as [c [pl [H1 [H2 [H3 _]]]]].
  exists c, pl. split; [exact H1 | split; [exact H2 | exact H3]].
Defined.

(** C9.  [setup_compress] assigns [compression] and [cmd_compress] and
    nothing else: for every request, every answer of the environment and
    every outcome (return or raise), [cmd] and the other attributes of the
    object are what they were before the call. *)
Theorem setup_compress_preserves_cmd (env : Env) (ty : option string)
    (st : State) :
  let o := self st in
  let o' := self (snd (setup_compress env ty st)) in
  cmd o' = cmd o /\
  logger o' = logger o /\ user o' = user o /\ host o' = host o /\
  port o' = port o /\ socket o' = socket o /\ key o' = key o.
Proof.
  intros o o'. subst o o'.
  destruct (setup_compress_frame env st ty)
    as [H1 [H2 [H3 [H4 [H5 [H6 H7]]]]]].
  repeat split; assumption.
Qed.

(** ** The socket path *)

(** The path does not tell [user@host] pairs apart when a host holds an
    [@]: the two strings are joined by the same character. *)
Example socket_path_at_sign_ambiguity :
  socket_path "ops@corp" "gw" 22 Sample.clock
  = socket_path "ops" "corp@gw" 22 Sample.clock.
Proof. reflexivity. Qed.

(** C8, as stated, fails: two sessions to the same endpoint, both
    constructed with success at different instants of the same second,
    hold the same socket path. *)
Lemma socket_path_shared_within_a_second :
  now Sample.healthy <> now Sample.healthy_later /\
  fst Sample.first_session = Return tt /\
  fst Sample.second_session = Return tt /\
  socket (self (snd Sample.first_session))
    = Some "/tmp/pyznap_alice@backup.example:22_2019-03-14_15:09:26" /\
  socket (self (snd Sample.second_session))
    = socket (self (snd Sample.first_session)).
Proof.
  split; [discriminate|].
  split; [vm_compute; reflexivity|].
  split; [vm_compute; reflexivity|].
  split; vm_compute; reflexivity.
Qed.

(** C8, amended.  [__init__] assigns
    [/tmp/pyznap_<user>@<host>:<port>_<YYYY-MM-DD_HH:MM:SS>] to
    [self.socket].  For two constructions at valid datetimes: the paths
    differ when the instants differ in their whole seconds; they differ
    when the endpoints differ and no host holds an [@]; and they are equal
    when the endpoints are equal and the instants fall in the same
    second. *)
Theorem socket_path_distinct (env1 env2 : Env) (u1 h1 u2 h2 : string)
    (k1 k2 : option string) (p1 p2 : Z) (c1 c2 : option string)
    (st1 st2 : State) :
  valid_datetime (now env1) = true ->
  valid_datetime (now env2) = true ->
  let s1 := socket (self (snd (__init__ env1 u1 h1 k1 p1 c1 st1))) in
  let s2 := socket (self (snd (__init__ env2 u2 h2 k2 p2 c2 st2))) in
  s1 = Some ("/tmp/pyznap_" ++ u1 ++ "@" ++ h1 ++ ":" ++ str_int p1 ++ "_"
             ++ strftime (now env1))%string /\
  (to_seconds (now env1) <> to_seconds (now env2) -> s1 <> s2) /\
  (has_char "@" h1 = false -> has_char "@" h2 = false ->
   (u1, h1, p1) <> (u2, h2, p2) -> s1 <> s2) /\
  (to_seconds (now env1) = to_seconds (now env2) ->
   (u1, h1, p1) = (u2, h2, p2) -> s1 = s2).
Proof.
  intros V1 V2 s1 s2. subst s1 s2. rewrite !init_socket.
  split; [reflexivity|]. split; [|split].
  - intros Hne H. apply some_eq in H.
    apply socket_path_inj in H; try assumption. now destruct H.
  - intros N1 N2 Hne H. apply some_eq in H.
    apply socket_path_inj in H; try assumption.
    destruct H as [_ H]. destruct (H N1 N2) as [-> [-> ->]]. now apply Hne.
  - intros Ht [= -> -> ->]. f_equal. unfold socket_path.
    rewrite <- (strftime_to_seconds (now env1)),
            <- (strftime_to_seconds (now env2)).
    now rewrite Ht.
Qed.

Lemma socket_path_distinct_witness :
  valid_datetime (now Sample.healthy) = true /\
  valid_datetime (now Sample.healthy_later) = true /\
  socket (self (snd (__init__ Sample.healthy "alice" "backup.example"
                       (Some "/tmp/validkey") 22 None
                       (mkState new_object [] []))))
  <> socket (self (snd (__init__ Sample.healthy_later "bob" "backup.example"
                          (Some "/tmp/validkey") 22 None
                          (mkState new_object [] [])))).
Proof.
  split; [reflexivity|]. split; [reflexivity|].
  destruct (socket_path_distinct Sample.healthy Sample.healthy_later
              "alice" "backup.example" "bob" "backup.example"
              (Some "/tmp/validkey") (Some "/tmp/validkey") 22 22 None None
              (mkState new_object [] []) (mkState new_object [] [])
              eq_refl eq_refl) as [_ [_ [H _]]].
  apply H; [reflexivity | reflexivity | discriminate].
Defined.


(** * Further properties of the module *)

(** Splits a goal about [__init__] along its five paths: probe passed,
    probe failed, probe timed out, probe not started, key file missing. *)
Ltac init_cases env u h key_ p compress st Hf Hr :=
  destruct (isfile env (resolve_key env key_)) eqn:Hf;
  [ let rc := fresh "rc" in
    let out := fresh "out" in
    let err := fresh "err" in
    let e := fresh "e" in
    let f := fresh "f" in
    let Hrc := fresh "Hrc" in
    destruct (run env (calls st) (session_cmd env u h key_ p ++ ["ls"]) 10)
      as [rc out err| |e f] eqn:Hr;
    [ destruct (Z.eq_dec rc 0) as [->|Hrc];
      [ rewrite (init_probe_ok env u h key_ p compress st out err Hf Hr)
      | rewrite (init_probe_failed env u h key_ p compress st rc out err
                   Hf Hr Hrc) ]
    | rewrite (init_probe_timeout env u h key_ p compress st Hf Hr)
    | rewrite (init_probe_not_started env u h key_ p compress st e f Hf Hr) ]
  | rewrite (init_no_key env u h key_ p compress st Hf) ].

Section NegotiationBranches.

Variable env : Env.

(** The five ways through [setup_compress] on an object that has the
    attributes the method reads, each with its final state. *)
Lemma setup_compress_branches st c lg u h ty :
  cmd (self st) = Some c ->
  logger (self st) = Some lg ->
  user (self st) = Some u ->
  host (self st) = Some h ->
  let o := uncompressed c (self st) in
  (ty = None /\
   setup_compress env ty st = (Return tt, with_self o st)) \/
  (exists t, ty = Some t /\ ~ In t algos /\
     setup_compress env ty st =
       (Return tt,
        mkState o (calls st)
          (log st ++ [mkLog WARNING
             "Compression method {:s} not supported. Will continue without..."
             [LStr t]]))) \/
  (exists t, ty = Some t /\ In t algos /\
     exists_ env (calls st) t None = false /\
     setup_compress env ty st =
       (Return tt,
        mkState o (calls st ++ [Exists t None])
          (log st ++ [mkLog WARNING
             "Compression algo {:s} does not exist, continuing without compression..."
             [LStr t]]))) \/
  (exists t, ty = Some t /\ In t algos /\
     exists_ env (calls st) t None = true /\
     exists_ env (calls st ++ [Exists t None]) t (Some o) = false /\
     setup_compress env ty st =
       (Return tt,
        mkState o (calls st ++ [Exists t None] ++ [Exists t (Some o)])
          (log st ++ [mkLog WARNING
             "Compression algo {:s} does not exist on {:s}@{:s}, continuingwithout compression..."
             [LStr t; LStr u; LStr h]]))) \/
  (exists t, ty = Some t /\ In t algos /\
     exists_ env (calls st) t None = true /\
     exists_ env (calls st ++ [Exists t None]) t (Some o) = true /\
     setup_compress env ty st =
       (Return tt,
        mkState (compressed t c (self st))
          (calls st ++ [Exists t None] ++ [Exists t (Some o)])
          (log st))).
Proof.
  intros Hc Hl Hu Hh o. subst o. destruct ty as [t|].
  - right. destruct (contains algos t) eqn:Hin.
    + apply contains_In in Hin. right.
      destruct (exists_ env (calls st) t None) eqn:He.
      * right.
        destruct (exists_ env (calls st ++ [Exists t None]) t
                    (Some (uncompressed c (self st)))) eqn:Hr.
        -- right. exists t. repeat (split; [reflexivity || assumption|]).
           now apply setup_compress_available.
        -- left. exists t. repeat (split; [reflexivity || assumption|]).
           now apply setup_compress_remote_missing with (lg := lg).
      * left. exists t. repeat (split; [reflexivity || assumption|]).
        now apply setup_compress_local_missing with (lg := lg).
    + left. exists t.
      assert (Hn : ~ In t algos).
      { intros H. apply contains_In in H. congruence. }
      repeat (split; [reflexivity || assumption|]).
      now apply setup_compress_unsupported with (lg := lg).
  - left. split; [reflexivity|]. now apply setup_compress_none.
Qed.

End NegotiationBranches.

(** ** Key resolution and the outcome of construction *)

Lemma resolve_key_cases (env : Env) (key_ : option string) :
  resolve_key env key_ =
    match key_ with
    | Some (String a k) => String a k
    | _ => expanduser env "~/.ssh/id_rsa"
    end.
Proof. destruct key_ as [[|a k]|]; reflexivity. Qed.

Lemma init_key (env : Env) u h key_ p compress st :
  key (self (snd (__init__ env u h key_ p compress st)))
    = Some (resolve_key env key_).
Proof.
  init_cases env u h key_ p compress st Hf Hr; try reflexivity.
  destruct (setup_compress_frame env
              (with_call (probe_call env u h key_ p)
                 (at_probe env u h key_ p st)) compress)
    as [_ [_ [_ [_ [_ [Hk _]]]]]].
  now rewrite Hk.
Qed.

(** X1.  [self.key] is the [key] argument when that is a non-empty
    string and the expansion of [~/.ssh/id_rsa] otherwise, on every path
    through [__init__]; an empty string is not told apart from no key at
    all, so the two constructions behave alike. *)
Theorem key_resolution (env : Env) (u h : string) (key_ : option string)
    (p : Z) (compress : option string) (st : State) :
  key (self (snd (__init__ env u h key_ p compress st)))
    = Some (match key_ with
            | Some (String a k) => String a k
            | _ => expanduser env "~/.ssh/id_rsa"
            end) /\
  __init__ env u h (Some "") p compress st
    = __init__ env u h None p compress st.
Proof.
  split.
  - rewrite init_key. f_equal. apply resolve_key_cases.
  - reflexivity.
Qed.

(** X2.  [__init__] returns exactly when the resolved key is an existing
    file and the probe child exits with status 0; the compression request
    and the answers of the capability checks play no part. *)
Theorem init_returns_iff (env : Env) (u h : string) (key_ : option string)
    (p : Z) (compress : option string) (st : State) :
  fst (__init__ env u h key_ p compress st) = Return tt <->
  (isfile env (resolve_key env key_) = true /\
   exists out err,
     run env (calls st) (session_cmd env u h key_ p ++ ["ls"]) 10
       = Exited 0 out err).
Proof.
  split.
  - apply init_returns.
  - intros [Hf [out [err Hr]]].
    rewrite (init_probe_ok env u h key_ p compress st out err Hf Hr).
    destruct (setup_compress_cases env
                (with_call (probe_call env u h key_ p)
                   (at_probe env u h key_ p st))
                (session_cmd env u h key_ p) "pyznap.ssh" u h compress
                eq_refl eq_refl eq_refl eq_refl) as [st' [-> _]].
    reflexivity.
Qed.

(** X3.  When [__init__] returns, every attribute of the object is set:
    the logger, the endpoint, the socket path, the key, the command vector,
    and both [compression] and [cmd_compress]. *)
Theorem constructed_session_attributes (env : Env) (u h : string)
    (key_ : option string) (p : Z) (compress : option string) (st : State) :
  fst (__init__ env u h key_ p compress st) = Return tt ->
  let o := self (snd (__init__ env u h key_ p compress st)) in
  logger o = Some "pyznap.ssh" /\ user o = Some u /\ host o = Some h /\
  port o = Some p /\ socket o = Some (socket_path u h p (now env)) /\
  key o = Some (resolve_key env key_) /\
  cmd o = Some (session_cmd env u h key_ p) /\
  (exists co, compression o = Some co) /\
  (exists cc, cmd_compress o = Some cc).
Proof.
  intros Hret o. subst o.
  destruct (init_returns env u h key_ p compress st Hret)
    as [Hf [out [err Hr]]].
  rewrite (init_probe_ok env u h key_ p compress st out err Hf Hr).
  set (st1 := with_call (probe_call env u h key_ p)
                (at_probe env u h key_ p st)).
  destruct (setup_compress_cases env st1 (session_cmd env u h key_ p)
              "pyznap.ssh" u h compress eq_refl eq_refl eq_refl eq_refl)
    as [st' [-> [Hs | [t [_ [_ Hs]]]]]]; cbn [fst snd]; rewrite Hs; cbn;
    repeat split; eexists; reflexivity.
Qed.

Lemma constructed_session_attributes_witness :
  fst (__init__ Sample.remote_bare "alice" "backup.example"
         (Some "/tmp/validkey") 22 (Some "lzop") (mkState new_object [] []))
    = Return tt /\
  compression (self (snd (__init__ Sample.remote_bare "alice"
         "backup.example" (Some "/tmp/validkey") 22 (Some "lzop")
         (mkState new_object [] [])))) <> None.
Proof.
  split; [vm_compute; reflexivity|].
  destruct (constructed_session_attributes Sample.remote_bare "alice"
              "backup.example" (Some "/tmp/validkey") 22 (Some "lzop")
              (mkState new_object [] []) eq_refl)
    as [_ [_ [_ [_ [_ [_ [_ [[co H] _]]]]]]]].
  rewrite H. discriminate.
Defined.


(** ** What leaves the process *)

(** The capability checks [setup_compress] makes, in order. *)
Lemma setup_compress_trace (env : Env) (st : State) (c : list string)
    (ty : option string) :
  cmd (self st) = Some c ->
  calls (snd (setup_compress env ty st)) =
    calls st ++
    match ty with
    | None => []
    | Some t =>
        if contains algos t then
          if exists_ env (calls st) t None
          then [Exists t None; Exists t (Some (uncompressed c (self st)))]
          else [Exists t None]
        else []
    end.
Proof.
  intros Hc. destruct st as [[lg u h p s k c0 co cc] cl lo].
  cbn in Hc. subst c0.
  unfold setup_compress. run_m. cbn -[contains getitem].
  destruct ty as [t|]; cbn -[contains getitem];
    [|now rewrite app_nil_r].
  destruct (contains algos t) eqn:Hin; cbn -[contains getitem].
  - destruct (exists_ env cl t None); cbn -[contains getitem].
    + fold (uncompressed c (mkSSH lg u h p s k (Some c) co cc)).
      destruct (exists_ env _ t (Some _)); cbn -[contains getitem].
      * apply contains_In in Hin.
        rewrite (proj1 (tables_agree t _ Hin)). cbn -[contains getitem].
        rewrite (proj2 (tables_agree t _ Hin)). cbn -[contains getitem].
        now rewrite <- app_assoc.
      * destruct lg; cbn; [|now rewrite <- app_assoc].
        destruct u; cbn; [|now rewrite <- app_assoc].
        destruct h; cbn; now rewrite <- app_assoc.
    + destruct lg; cbn; reflexivity.
  - destruct lg; cbn; now rewrite app_nil_r.
Qed.

(** X5.  On an object with a command vector, [setup_compress] asks
    [exists] in a fixed order and no more than needed: nothing for no
    request or a name outside the supported list; the local check alone
    when that fails; the local check and then the check through the
    session otherwise.  It spawns no child of its own. *)
Theorem setup_compress_checks (env : Env) (st : State) (c : list string)
    (ty : option string) :
  cmd (self st) = Some c ->
  let after := calls (snd (setup_compress env ty st)) in
  let here t := Exists t None in
  let there t := Exists t (Some (uncompressed c (self st))) in
  match ty with
  | None => after = calls st
  | Some t =>
      (~ In t algos -> after = calls st) /\
      (In t algos -> exists_ env (calls st) t None = false ->
       after = calls st ++ [here t]) /\
      (In t algos -> exists_ env (calls st) t None = true ->
       after = calls st ++ [here t; there t])
  end.
Proof.
  intros Hc after here there. subst after here there.
  rewrite (setup_compress_trace env st c ty Hc).
  destruct ty as [t|]; [|now rewrite app_nil_r].
  split; [|split].
  - intros Hn. rewrite <- contains_In in Hn.
    apply not_true_is_false in Hn. rewrite Hn. now rewrite app_nil_r.
  - intros Hin He. rewrite <- contains_In in Hin. now rewrite Hin, He.
  - intros Hin He. rewrite <- contains_In in Hin. now rewrite Hin, He.
Qed.

Lemma setup_compress_checks_witness :
  cmd (self Sample.alice) = Some Sample.alice_cmd /\
  calls (snd (setup_compress Sample.remote_bare (Some "zstd") Sample.alice))
    = [] /\
  calls (snd (setup_compress Sample.remote_bare (Some "pigz") Sample.alice))
    = [Exists "pigz" None;
       Exists "pigz"
         (Some (uncompressed Sample.alice_cmd (self Sample.alice)))].
Proof.
  split; [reflexivity|].
  pose proof (setup_compress_checks Sample.remote_bare Sample.alice
                Sample.alice_cmd (Some "zstd") eq_refl) as H1.
  pose proof (setup_compress_checks Sample.remote_bare Sample.alice
                Sample.alice_cmd (Some "pigz") eq_refl) as H2.
  cbv zeta beta iota in H1, H2.
  destruct H1 as [H1 _]. destruct H2 as [_ [_ H2]].
  split.
  - apply H1. unfold algos. cbn. intuition discriminate.
  - apply H2; [do 3 right; left; reflexivity | reflexivity].
Defined.

(** X6.  The calls [__init__] adds to those made before are: none when
    the key file is missing; the probe followed by the exit directive when
    [SSHException] is raised; the probe, alone or followed by the exit
    directive, when the [OSError] of a child that could not be started is
    raised; and, when it returns, the probe followed by at most two
    capability checks and no exit directive. *)
Theorem init_calls (env : Env) (u h : string) (key_ : option string)
    (p : Z) (compress : option string) (st : State) :
  let base := session_cmd env u h key_ p in
  let r := __init__ env u h key_ p compress st in
  exists added,
    calls (snd r) = calls st ++ added /\
    match fst r with
    | Raise (FileNotFoundError _) => added = []
    | Raise (OSError _ _) =>
        added = [CheckOutput (base ++ ["ls"]) 10] \/
        added = [CheckOutput (base ++ ["ls"]) 10;
                 CheckOutput (base ++ ["-O"; "exit"]) 5]
    | Raise _ =>
        added = [CheckOutput (base ++ ["ls"]) 10;
                 CheckOutput (base ++ ["-O"; "exit"]) 5]
    | Return _ =>
        exists checks,
          added = CheckOutput (base ++ ["ls"]) 10 :: checks /\
          (length checks <= 2)%nat /\
          Forall (fun c => exists t o, c = Exists t o) checks
    end.
Proof.
  intros base r. subst base r.
  init_cases env u h key_ p compress st Hf Hr; cbn [fst snd calls].
  - set (st1 := with_call (probe_call env u h key_ p)
                  (at_probe env u h key_ p st)).
    pose proof (setup_compress_trace env st1 (session_cmd env u h key_ p)
                  compress eq_refl) as Ht.
    destruct (setup_compress_cases env st1 (session_cmd env u h key_ p)
                "pyznap.ssh" u h compress eq_refl eq_refl eq_refl eq_refl)
      as [st' [E _]].
    rewrite E in *. cbn [fst snd] in *. rewrite Ht.
    cbn [st1 calls with_call at_probe with_self]. rewrite <- app_assoc.
    eexists. split; [reflexivity|]. cbn [app].
    eexists. split; [reflexivity|].
    destruct compress as [t|]; [|split; [cbn; lia | constructor]].
    destruct (contains algos t); [|split; [cbn; lia | constructor]].
    destruct (exists_ env _ t None); split; cbn; try lia;
      repeat constructor; eexists; eexists; reflexivity.
  - eexists. split; [reflexivity|].
    destruct (run env (calls st ++ _) _ 5); cbn; auto.
  - eexists. split; [reflexivity|].
    destruct (run env (calls st ++ _) _ 5); cbn; auto.
  - eexists. split; [reflexivity | now left].
  - exists []. split; [now rewrite app_nil_r | reflexivity].
Qed.

(** ** Soundness of the negotiated compression *)

(** The value [setup_compress] leaves in [compression]. *)
Lemma setup_compress_compression (env : Env) (st : State) (c : list string)
    (ty : option string) :
  cmd (self st) = Some c ->
  compression (self (snd (setup_compress env ty st))) =
    Some match ty with
         | None => None
         | Some t =>
             if contains algos t
                && exists_ env (calls st) t None
                && exists_ env (calls st ++ [Exists t None]) t
                     (Some (uncompressed c (self st)))
             then Some t else None
         end.
Proof.
  intros Hc. destruct st as [[lg u h p s k c0 co cc] cl lo].
  cbn in Hc. subst c0.
  unfold setup_compress. run_m. cbn -[contains getitem].
  destruct ty as [t|]; cbn -[contains getitem]; [|reflexivity].
  destruct (contains algos t) eqn:Hin; cbn -[contains getitem].
  - destruct (exists_ env cl t None); cbn -[contains getitem].
    + fold (uncompressed c (mkSSH lg u h p s k (Some c) co cc)).
      destruct (exists_ env _ t (Some _)); cbn -[contains getitem].
      * apply contains_In in Hin.
        rewrite (proj1 (tables_agree t _ Hin)). cbn -[contains getitem].
        rewrite (proj2 (tables_agree t _ Hin)). reflexivity.
      * destruct lg; cbn; [|reflexivity].
        destruct u; cbn; [|reflexivity].
        destruct h; cbn; reflexivity.
    + destruct lg; cbn; reflexivity.
  - destruct lg; cbn; reflexivity.
Qed.

(** X7.  After [setup_compress] on an object with a command vector,
    [compression] is set, and it holds an algorithm [t] exactly when [t]
    was requested, is in the supported list, and [exists] answered true
    both locally and through the session; in every other case, a raise
    included, it holds [None]. *)
Theorem compression_sound (env : Env) (st : State) (c : list string)
    (ty : option string) :
  cmd (self st) = Some c ->
  exists v,
    compression (self (snd (setup_compress env ty st))) = Some v /\
    (forall t,
       v = Some t <->
       (ty = Some t /\ In t algos /\
        exists_ env (calls st) t None = true /\
        exists_ env (calls st ++ [Exists t None]) t
          (Some (uncompressed c (self st))) = true)) /\
    (v = None \/ v = ty).
Proof.
  intros Hc. rewrite (setup_compress_compression env st c ty Hc).
  eexists. split; [reflexivity|].
  destruct ty as [t'|].
  - destruct (contains algos t') eqn:Hin; cbn [andb].
    + apply contains_In in Hin.
      destruct (exists_ env (calls st) t' None) eqn:He; cbn [andb].
      * destruct (exists_ env (calls st ++ [Exists t' None]) t'
                    (Some (uncompressed c (self st)))) eqn:Hr.
        -- split; [|now right]. intros t. split.
           ++ intros [= <-]. now repeat split.
           ++ intros [[= ->] _]. reflexivity.
        -- split; [|now left]. intros t. split; [discriminate|].
           intros [[= ->] [_ [_ H]]]. congruence.
      * split; [|now left]. intros t. split; [discriminate|].
        intros [[= ->] [_ [H _]]]. congruence.
    + split; [|now left]. intros t. split; [discriminate|].
      intros [[= ->] [H _]]. apply contains_In in H. congruence.
  - split; [|now left]. intros t. split; [discriminate|].
    intros [H _]. discriminate.
Qed.

Lemma compression_sound_witness :
  cmd (self Sample.alice) = Some Sample.alice_cmd /\
  compression (self (snd (setup_compress Sample.healthy (Some "bzip2")
                            Sample.alice))) = Some (Some "bzip2") /\
  compression (self (snd (setup_compress Sample.remote_bare (Some "bzip2")
                            Sample.alice))) = Some None.
Proof.
  split; [reflexivity|].
  destruct (compression_sound Sample.healthy Sample.alice Sample.alice_cmd
              (Some "bzip2") eq_refl) as [v [Hv [Hiff _]]].
  destruct (compression_sound Sample.remote_bare Sample.alice
              Sample.alice_cmd (Some "bzip2") eq_refl)
    as [v' [Hv' [Hiff' _]]].
  split.
  - rewrite Hv. f_equal. apply Hiff.
    split; [reflexivity|]. split; [|split; reflexivity].
    do 2 right. left. reflexivity.
  - rewrite Hv'. f_equal. destruct v' as [t|]; [|reflexivity].
    destruct (proj1 (Hiff' t) eq_refl) as [[= <-] [_ [_ H]]].
    discriminate H.
Defined.

(** ** The finalizer after construction *)

(** X8.  After [SSH(...)], whatever its outcome, [__del__] returns
    exactly when the key file existed and the child of its exit directive
    is started.  With the key file present it sends the exit directive of
    this session (also after a failed probe, where [close] had sent it
    already) and raises only the [OSError] of a child that cannot be
    started; with the key file missing it raises [AttributeError]
    without sending anything. *)
Theorem del_after_construct (env : Env) (u h : string)
    (key_ : option string) (p : Z) (compress : option string)
    (before : list call) (lg : list log_record) :
  let r := construct env u h key_ p compress before lg in
  let directive :=
    CheckOutput (session_cmd env u h key_ p ++ ["-O"; "exit"]) 5 in
  let closing :=
    run env (calls (snd r)) (session_cmd env u h key_ p ++ ["-O"; "exit"]) 5 in
  (fst (__del__ env (snd r)) = Return tt <->
   (isfile env (resolve_key env key_) = true /\ started closing = true)) /\
  (isfile env (resolve_key env key_) = true ->
   snd (__del__ env (snd r)) = with_call directive (snd r) /\
   forall e f, closing = NotStarted e f ->
               fst (__del__ env (snd r)) = Raise (OSError e f)) /\
  (isfile env (resolve_key env key_) = false ->
   __del__ env (snd r) = (Raise (AttributeError "cmd"), snd r)).
Proof.
  intros r directive closing. subst r directive closing.
  unfold construct, __del__.
  set (r := __init__ env u h key_ p compress (mkState new_object before lg)).
  assert (Hyes : isfile env (resolve_key env key_) = true ->
            close env (snd r) =
            (unless_not_started
               (run env (calls (snd r))
                  (session_cmd env u h key_ p ++ ["-O"; "exit"]) 5)
               (Return tt),
             with_call
               (CheckOutput (session_cmd env u h key_ p ++ ["-O"; "exit"]) 5)
               (snd r))).
  { intros Hf. apply close_outcome. now apply init_cmd_socket. }
  assert (Hno : isfile env (resolve_key env key_) = false ->
            close env (snd r) = (Raise (AttributeError "cmd"), snd r)).
  { intros Hf. subst r.
    rewrite (init_no_key env u h key_ p compress _ Hf). cbn [snd].
    now apply close_without_cmd. }
  split; [|split].
  - destruct (isfile env (resolve_key env key_)) eqn:Hf.
    + rewrite (Hyes eq_refl). cbn [fst].
      destruct (run env (calls (snd r)) _ 5); cbn; split;
        try (intros _; now split); try discriminate;
        intros [_ H]; discriminate.
    + rewrite (Hno eq_refl). cbn [fst]. split; [discriminate|].
      intros [H _]; discriminate.
  - intros Hf. rewrite (Hyes Hf). cbn [fst snd]. split; [reflexivity|].
    intros e f ->. reflexivity.
  - exact Hno.
Qed.

Lemma del_after_construct_witness :
  isfile Faults.no_transport
    (resolve_key Faults.no_transport (Some "/tmp/validkey")) = true /\
  fst (construct Faults.no_transport "alice" "backup.example"
         (Some "/tmp/validkey") 22 None [] [])
    = Raise (OSError 2 (Some "ssh")) /\
  fst (__del__ Faults.no_transport
         (snd (construct Faults.no_transport "alice" "backup.example"
                 (Some "/tmp/validkey") 22 None [] [])))
    = Raise (OSError 2 (Some "ssh")).
Proof.
  split; [reflexivity|]. split; [vm_compute; reflexivity|].
  destruct (del_after_construct Faults.no_transport "alice"
              "backup.example" (Some "/tmp/validkey") 22 None [] [])
    as [_ [H _]].
  destruct (H eq_refl) as [_ H']. apply H'. vm_compute. reflexivity.
Defined.

(** ** What is logged *)

(** X9.  A raise of [__init__] is preceded by exactly one record at
    level [ERROR], except when the key file exists and the probe's child
    cannot be started: that [OSError] is raised with nothing logged.
    When [__init__] returns, either the request was honoured and nothing
    was logged, or a requested algorithm [t] was dropped ([compression]
    is [None]) and exactly one record at level [WARNING], naming [t], was
    logged. *)
Theorem init_log (env : Env) (u h : string) (key_ : option string)
    (p : Z) (compress : option string) (st : State) :
  let r := __init__ env u h key_ p compress st in
  let probing := run env (calls st) (session_cmd env u h key_ p ++ ["ls"]) 10 in
  match fst r with
  | Raise _ =>
      if isfile env (resolve_key env key_) && negb (started probing)
      then log (snd r) = log st
      else exists rec, log (snd r) = log st ++ [rec] /\ at_level ERROR rec
  | Return _ =>
      (compression (self (snd r)) = Some compress /\
       log (snd r) = log st) \/
      (exists t rec,
         compress = Some t /\ compression (self (snd r)) = Some None /\
         log (snd r) = log st ++ [rec] /\ at_level WARNING rec /\
         In (LStr t) (log_args rec))
  end.
Proof.
  cbv zeta.
  init_cases env u h key_ p compress st Hf Hr; cbn [fst snd log andb negb started].
  - set (st1 := with_call (probe_call env u h key_ p)
                  (at_probe env u h key_ p st)).
    destruct (setup_compress_branches env st1 (session_cmd env u h key_ p)
                "pyznap.ssh" u h compress eq_refl eq_refl eq_refl eq_refl)
      as [[-> E] | [[t [-> [_ E]]] | [[t [-> [_ [_ E]]]]
         | [[t [-> [_ [_ [_ E]]]]] | [t [-> [_ [_ [_ E]]]]]]]]];
      rewrite E; cbn [fst snd].
    + left. split; reflexivity.
    + right. exists t. eexists. repeat split. now left.
    + right. exists t. eexists. repeat split. now left.
    + right. exists t. eexists. repeat split. now left.
    + left. split; reflexivity.
  - destruct (run env (calls st ++ _) _ 5); cbn;
      eexists; split; reflexivity.
  - destruct (run env (calls st ++ _) _ 5); cbn;
      eexists; split; reflexivity.
  - reflexivity.
  - eexists. split; reflexivity.
Qed.

(** ** The text of a connection error *)

Lemma rstrip_cons (c : ascii) (s : string) :
  rstrip (String c s) =
    match rstrip s with
    | "" => if is_space c then "" else String c ""
    | String d r => String c (String d r)
    end.
Proof. reflexivity. Qed.

Lemma rstrip_spec (s : string) :
  exists w, s = (rstrip s ++ w)%string /\ all_space w = true /\
            no_trailing_space (rstrip s).
Proof.
  unfold no_trailing_space.
  induction s as [|c s [w [Hs [Hw Hl]]]].
  - exists "". now repeat split.
  - rewrite rstrip_cons. destruct (rstrip s) as [|d r'] eqn:Hr.
    + cbn [append] in Hs. subst w. destruct (is_space c) eqn:Hc.
      * exists (String c s). split; [reflexivity|]. split; [|exact I].
        cbn [all_space]. now rewrite Hc, Hw.
      * exists s. split; [reflexivity|]. split; [assumption | exact Hc].
    + exists w. split; [|split].
      * cbn [append] in *. now f_equal.
      * assumption.
      * exact Hl.
Qed.

(** X10.  When the probe exits with a status other than 0, the text kept
    of the failure is the captured stderr with a run of trailing ASCII
    whitespace removed and nothing else: it is a prefix of the stderr,
    what was cut off is whitespace only, and what is left does not end in
    whitespace.  That text goes into the [ERROR] record, and it is the
    argument of the [SSHException] raised whenever the child of the exit
    directive is started (when it cannot be, its [OSError] is raised in
    place of the [SSHException]). *)
Theorem connection_error_text (env : Env) (u h : string)
    (key_ : option string) (p : Z) (compress : option string) (st : State)
    (rc : Z) (out err : string) :
  isfile env (resolve_key env key_) = true ->
  run env (calls st) (session_cmd env u h key_ p ++ ["ls"]) 10
    = Exited rc out err ->
  rc <> 0%Z ->
  let r := __init__ env u h key_ p compress st in
  let closing :=
    run env (calls st ++ [CheckOutput (session_cmd env u h key_ p ++ ["ls"])
                            10])
      (session_cmd env u h key_ p ++ ["-O"; "exit"]) 5 in
  exists b w,
    (started closing = true -> fst r = Raise (SSHException (ArgBytes b))) /\
    (forall e f, closing = NotStarted e f -> fst r = Raise (OSError e f)) /\
    err = (b ++ w)%string /\ all_space w = true /\ no_trailing_space b /\
    exists rec, log (snd r) = log st ++ [rec] /\ In (LBytes b) (log_args rec).
Proof.
  intros Hf Hr Hrc r closing. subst r closing.
  rewrite (init_probe_failed env u h key_ p compress st rc out err Hf Hr Hrc).
  destruct (rstrip_spec err) as [w [Hs [Hw Hl]]].
  exists (rstrip err), w. cbn [fst snd log]. unfold probe_call.
  split; [|split].
  - intros H. destruct (run env (calls st ++ _) _ 5);
      [reflexivity | reflexivity | discriminate].
  - intros e f ->. reflexivity.
  - repeat split; try assumption.
    eexists. split; [reflexivity|]. cbn. auto.
Qed.

Lemma connection_error_text_witness :
  isfile Sample.refused (resolve_key Sample.refused (Some "/tmp/validkey"))
    = true /\
  exists b w,
    fst (__init__ Sample.refused "alice" "backup.example"
           (Some "/tmp/validkey") 22 None (mkState new_object [] []))
      = Raise (SSHException (ArgBytes b)) /\
    Sample.refusal = (b ++ w)%string /\ all_space w = true.
Proof.
  split; [reflexivity|].
  assert (Hne : 255%Z <> 0%Z) by discriminate.
  destruct (connection_error_text Sample.refused "alice" "backup.example"
              (Some "/tmp/validkey") 22 None (mkState new_object [] [])
              255 "" Sample.refusal eq_refl eq_refl Hne)
    as [b [w [H1 [_ [H2 [H3 _]]]]]].
  exists b, w. split; [exact (H1 eq_refl) | split; [exact H2 | exact H3]].
Defined.

(** ** Negotiating again, and negotiating on an incomplete object *)

(** X11.  On an object with a command vector, [setup_compress] does not
    look at what an earlier negotiation left: whatever [compression] and
    [cmd_compress] held before, outcome, object, calls and log are the
    same.  A later request that fails thus drops a compression that was
    in force. *)
Theorem setup_compress_afresh (env : Env) (st : State) (c : list string)
    (ty : option string) (co : option (option string))
    (cc : option (list string)) :
  cmd (self st) = Some c ->
  setup_compress env ty (with_self (with_negotiation co cc (self st)) st)
    = setup_compress env ty st.
Proof.
  intros Hc. destruct st as [[lg u h p s k c0 co0 cc0] cl lo].
  cbn in Hc. subst c0.
  unfold setup_compress, with_negotiation. run_m. reflexivity.
Qed.

Lemma setup_compress_afresh_witness :
  cmd (self Sample.alice) = Some Sample.alice_cmd /\
  compression
    (self (snd (setup_compress Sample.healthy (Some "zip")
                  (with_self
                     (with_negotiation (Some (Some "gzip"))
                        (Some (["gzip"; "|"] ++ Sample.alice_cmd
                               ++ ["gzip -d"; "|"]))
                        (self Sample.alice))
                     Sample.alice))))
    = Some None.
Proof.
  split; [reflexivity|].
  rewrite (setup_compress_afresh Sample.healthy Sample.alice
             Sample.alice_cmd (Some "zip") _ _ eq_refl).
  reflexivity.
Defined.

(** X12.  [setup_compress] raises nothing but [AttributeError], and only
    for an attribute it reads that the object lacks ([cmd], [logger],
    [user], [host]); the two tables never give a [KeyError].  On an object
    without [cmd] it raises after [compression] has been set to [None],
    leaving [cmd_compress], the calls and the log as they were. *)
Theorem setup_compress_raises_only (env : Env) (st : State)
    (ty : option string) :
  match fst (setup_compress env ty st) with
  | Return _ => True
  | Raise (AttributeError a) =>
      (a = "cmd" /\ cmd (self st) = None) \/
      (a = "logger" /\ logger (self st) = None) \/
      (a = "user" /\ user (self st) = None) \/
      (a = "host" /\ host (self st) = None)
  | Raise _ => False
  end /\
  (cmd (self st) = None ->
   setup_compress env ty st =
     (Raise (AttributeError "cmd"),
      with_self (set_compression None (self st)) st)).
Proof.
  destruct st as [[lg u h p s k c co cc] cl lo]. split.
  - unfold setup_compress. run_m. cbn -[contains getitem].
    destruct c as [c|]; cbn -[contains getitem]; [|left; now split].
    destruct ty as [t|]; cbn -[contains getitem]; [|exact I].
    destruct (contains algos t) eqn:Hin; cbn -[contains getitem].
    + destruct (exists_ env cl t None); cbn -[contains getitem].
      * destruct (exists_ env _ t (Some _)); cbn -[contains getitem].
        -- apply contains_In in Hin.
           rewrite (proj1 (tables_agree t _ Hin)). cbn -[contains getitem].
           rewrite (proj2 (tables_agree t _ Hin)). exact I.
        -- destruct lg; cbn; [|right; left; now split].
           destruct u; cbn; [|right; right; left; now split].
           destruct h; cbn; [exact I | right; right; right; now split].
      * destruct lg; cbn; [exact I | right; left; now split].
    + destruct lg; cbn; [exact I | right; left; now split].
  - cbn. intros ->. reflexivity.
Qed.

(** X13.  When [__init__] raises, [setup_compress] has not run:
    [compression] and [cmd_compress] are what they were before the call
    (unset, on a new object). *)
Theorem failed_construction_not_negotiated (env : Env) (u h : string)
    (key_ : option string) (p : Z) (compress : option string) (st : State)
    (e : exn) :
  fst (__init__ env u h key_ p compress st) = Raise e ->
  compression (self (snd (__init__ env u h key_ p compress st)))
    = compression (self st) /\
  cmd_compress (self (snd (__init__ env u h key_ p compress st)))
    = cmd_compress (self st).
Proof.
  init_cases env u h key_ p compress st Hf Hr; cbn [fst snd];
    try (intros _; split; reflexivity).
  destruct (setup_compress_cases env
              (with_call (probe_call env u h key_ p)
                 (at_probe env u h key_ p st))
              (session_cmd env u h key_ p) "pyznap.ssh" u h compress
              eq_refl eq_refl eq_refl eq_refl) as [st' [-> _]].
  discriminate.
Qed.

Lemma failed_construction_not_negotiated_witness :
  fst (construct Sample.silent "alice" "backup.example"
         (Some "/tmp/validkey") 22 (Some "gzip") [] [])
    = Raise (SSHException (ArgTimeoutExpired (Sample.alice_cmd ++ ["ls"]) 10))
  /\
  cmd_compress (self (snd (construct Sample.silent "alice" "backup.example"
                             (Some "/tmp/validkey") 22 (Some "gzip") [] [])))
    = None.
Proof.
  assert (E : fst (construct Sample.silent "alice" "backup.example"
                     (Some "/tmp/validkey") 22 (Some "gzip") [] [])
              = Raise (SSHException
                  (ArgTimeoutExpired (Sample.alice_cmd ++ ["ls"]) 10)))
    by (vm_compute; reflexivity).
  split; [exact E|].
  destruct (failed_construction_not_negotiated Sample.silent "alice"
              "backup.example" (Some "/tmp/validkey") 22 (Some "gzip")
              (mkState new_object [] []) _ E) as [_ H].
  exact H.
Defined.

(** ** The command vector names its control socket *)

(** X14.  Two constructions past the credential check that end with the
    same command vector have the same key, the same socket path and the
    same port: sessions share a command vector only if they share the
    control socket. *)
Theorem same_cmd_same_socket (env1 env2 : Env) (u1 h1 u2 h2 : string)
    (k1 k2 : option string) (p1 p2 : Z) (c1 c2 : option string)
    (st1 st2 : State) :
  isfile env1 (resolve_key env1 k1) = true ->
  isfile env2 (resolve_key env2 k2) = true ->
  let o1 := self (snd (__init__ env1 u1 h1 k1 p1 c1 st1)) in
  let o2 := self (snd (__init__ env2 u2 h2 k2 p2 c2 st2)) in
  cmd o1 = cmd o2 ->
  key o1 = key o2 /\ socket o1 = socket o2 /\ port o1 = port o2.
Proof.
  intros F1 F2 o1 o2 H. subst o1 o2.
  assert (P1 : port (self (snd (__init__ env1 u1 h1 k1 p1 c1 st1)))
               = Some p1).
  { init_cases env1 u1 h1 k1 p1 c1 st1 Hf Hr; try reflexivity;
      try discriminate.
    destruct (setup_compress_frame env1
                (with_call (probe_call env1 u1 h1 k1 p1)
                   (at_probe env1 u1 h1 k1 p1 st1)) c1)
      as [_ [_ [_ [Hp _]]]].
    now rewrite Hp. }
  assert (P2 : port (self (snd (__init__ env2 u2 h2 k2 p2 c2 st2)))
               = Some p2).
  { init_cases env2 u2 h2 k2 p2 c2 st2 Hf Hr; try reflexivity;
      try discriminate.
    destruct (setup_compress_frame env2
                (with_call (probe_call env2 u2 h2 k2 p2)
                   (at_probe env2 u2 h2 k2 p2 st2)) c2)
      as [_ [_ [_ [Hp _]]]].
    now rewrite Hp. }
  rewrite P1, P2, !init_key.
  destruct (init_cmd_socket env1 u1 h1 k1 p1 c1 st1 F1) as [C1 S1].
  destruct (init_cmd_socket env2 u2 h2 k2 p2 c2 st2 F2) as [C2 S2].
  rewrite C1, C2 in H. rewrite S1, S2.
  apply some_eq in H. unfold session_cmd, base_cmd in H.
  pose proof (f_equal (fun l => nth 2 l "") H) as Hk.
  pose proof (f_equal (fun l => nth 8 l "") H) as Hs.
  pose proof (f_equal (fun l => nth 10 l "") H) as Hp.
  cbn [nth] in Hk, Hs, Hp.
  apply append_inv_head in Hs. apply str_int_inj in Hp.
  now rewrite Hk, Hs, Hp.
Qed.

Lemma same_cmd_same_socket_witness :
  isfile Sample.healthy (resolve_key Sample.healthy (Some "/tmp/validkey"))
    = true /\
  isfile Sample.healthy_later
    (resolve_key Sample.healthy_later (Some "/tmp/validkey")) = true /\
  socket (self (snd (__init__ Sample.healthy "alice" "backup.example"
                       (Some "/tmp/validkey") 22 None
                       (mkState new_object [] []))))
    = socket (self (snd (__init__ Sample.healthy_later "alice"
                           "backup.example" (Some "/tmp/validkey") 22
                           (Some "xz") (mkState new_object [] [])))).
Proof.
  split; [reflexivity|]. split; [reflexivity|].
  assert (E : cmd (self (snd (__init__ Sample.healthy "alice"
                 "backup.example" (Some "/tmp/validkey") 22 None
                 (mkState new_object [] []))))
              = cmd (self (snd (__init__ Sample.healthy_later "alice"
                 "backup.example" (Some "/tmp/validkey") 22 (Some "xz")
                 (mkState new_object [] [])))))
    by (vm_compute; reflexivity).
  exact (proj1 (proj2
    (same_cmd_same_socket Sample.healthy Sample.healthy_later
       "alice" "backup.example" "alice" "backup.example"
       (Some "/tmp/validkey") (Some "/tmp/validkey") 22 22 None (Some "xz")
       (mkState new_object [] []) (mkState new_object [] [])
       eq_refl eq_refl E))).
Defined.
